(** * In-car monitoring backend: the handlers of [app.py], embedded and verified

    The program is a FastAPI application with three handlers that touch a
    daily JSON-Lines file: [log_summary] appends one record, [get_today_logs]
    reads the records back and [get_stats] aggregates them.

    The embedding follows the Python text.  Values that travel through
    [json.dumps]/[json.loads] are terms of [json]; Python floats are the
    kernel's binary64 floats; the file system, the clock and the UUID source
    form a [World] that the handlers thread through a state-and-exception
    monad, so that [try]/[except] reads as [try_except]. *)

From Stdlib Require Import ZArith Floats String Ascii List Bool Lia.
From stdpp Require Import base option list gmap strings pretty.
Import ListNotations.

Set Warnings "-register-all".
Local Open Scope string_scope.
Local Open Scope list_scope.
Local Open Scope Z_scope.

(** ** JSON values, as Python holds them

    A [dict] keeps its insertion order, so it is an association list; the
    dictionaries that [json.loads] and the handlers build never repeat a
    key. *)

Inductive json : Type :=
  | JNull
  | JBool (b : bool)
  | JInt (n : Z)
  | JFloat (f : float)
  | JStr (s : string)
  | JList (l : list json)
  | JDict (d : list (string * json)).

Abbreviation pydict := (list (string * json)).

(** [d.get(k)] / [k in d]: the first binding of [k]. *)
Fixpoint dict_lookup (k : string) (d : pydict) : option json :=
  match d with
  | [] => None
  | (k', v) :: d' => if String.eqb k k' then Some v else dict_lookup k d'
  end.

(** [d[k] = v]: an existing key keeps its place, a new key goes last. *)
Fixpoint dict_set (k : string) (v : json) (d : pydict) : pydict :=
  match d with
  | [] => [(k, v)]
  | (k', v') :: d' =>
      if String.eqb k k' then (k', v) :: d' else (k', v') :: dict_set k v d'
  end.

(** ** Text: lines and blanks

    A [string] is a sequence of code points below 256.  The file is opened
    in text mode with universal newlines, so iterating over it yields the
    lines with their terminator, and "\r\n" and "\r" both read as "\n".
    Written text is stored as it is (the host's line separator is "\n"). *)

Definition LF : ascii := ascii_of_N 10.
Definition CR : ascii := ascii_of_N 13.
Definition NL : string := String LF EmptyString.

(** [str.isspace] on one character (code points below 256). *)
Definition is_space (c : ascii) : bool :=
  let n := N_of_ascii c in
  ((9 <=? n) && (n <=? 13) || (28 <=? n) && (n <=? 32)
   || (n =? 133) || (n =? 160))%N.

Fixpoint all_space (s : string) : bool :=
  match s with
  | EmptyString => true
  | String c s' => is_space c && all_space s'
  end.

(** [if line.strip():] holds exactly when some character is not a space. *)
Definition strip_truthy (line : string) : bool := negb (all_space line).

(** [cur] is the part of the current line read so far. *)
Fixpoint lines_from (cur : string) (s : string) : list string :=
  match s with
  | EmptyString => match cur with EmptyString => [] | _ => [cur] end
  | String c s' =>
      if Ascii.eqb c LF then (cur +:+ NL) :: lines_from "" s'
      else if Ascii.eqb c CR then
        match s' with
        | String c' s'' =>
            if Ascii.eqb c' LF then (cur +:+ NL) :: lines_from "" s''
            else (cur +:+ NL) :: lines_from "" s'
        | EmptyString => [cur +:+ NL]
        end
      else lines_from (cur +:+ String c EmptyString) s'
  end.

(** [for line in f] over the whole content. *)
Definition readlines (content : string) : list string := lines_from "" content.

(** ** Dates and times *)

Record datetime : Type := mk_datetime {
  year : nat; month : nat; day : nat;
  hour : nat; minute : nat; second : nat; microsecond : nat
}.

Fixpoint zeros (n : nat) : string :=
  match n with O => "" | S n' => "0" +:+ zeros n' end.

Definition pad_left (w : nat) (s : string) : string :=
  zeros (w - String.length s)%nat +:+ s.

(** ["%0<w>d" % n] *)
Definition zero_pad (w : nat) (n : nat) : string := pad_left w (pretty n).

(** [strftime("%Y-%m-%d")], for the four-digit years a running clock shows. *)
Definition strftime_ymd (d : datetime) : string :=
  zero_pad 4 (year d) +:+ "-" +:+ zero_pad 2 (month d) +:+ "-" +:+ zero_pad 2 (day d).

(** [datetime.isoformat()]: the microseconds are printed unless they are 0. *)
Definition isoformat (d : datetime) : string :=
  strftime_ymd d +:+ "T" +:+ zero_pad 2 (hour d) +:+ ":" +:+ zero_pad 2 (minute d)
  +:+ ":" +:+ zero_pad 2 (second d)
  +:+ match microsecond d with
      | O => ""
      | us => "." +:+ zero_pad 6 us
      end.

(** ** Exceptions and responses

    Every [except] clause of the program is [except Exception], so the class
    of an exception only matters for what the client is told.  The detail of
    an [HTTPException] is either a fixed text or the f-string
    [f"Internal server error: {str(e)}"] of [log_summary], kept as its prefix
    and the exception it prints. *)

Inductive exc : Type :=
  | JSONDecodeError
  | KeyError (k : string)
  | TypeError
  | AttributeError
  | OverflowError
  | OSError
  | RequestValidationError
  | HTTPException (status_code : Z) (detail : detail)
with detail : Type :=
  | Text (s : string)
  | FString (s : string) (e : exc).

Inductive result (A : Type) : Type :=
  | Ok (a : A)
  | Raise (e : exc).
Arguments Ok {A} a.
Arguments Raise {A} e.

(** ** The world outside the process

    [files] maps a path to the content of the file there.  [clock] lists the
    values that successive calls of [datetime.now()] return and [ticks]
    counts the calls made; [uuids] and [draws] do the same for
    [str(uuid.uuid4())].  [disk_fault] says that opening or writing a file
    for append raises [OSError] (a full disk, a missing directory, no
    permission); a failed append leaves the files as they were. *)

Record World : Type := mk_World {
  files : gmap string string;
  clock : nat -> datetime;
  ticks : nat;
  uuids : nat -> string;
  draws : nat;
  disk_fault : bool
}.

Definition set_files (fs : gmap string string) (w : World) : World :=
  mk_World fs (clock w) (ticks w) (uuids w) (draws w) (disk_fault w).

(** ** The monad of handlers: state and exceptions

    An exception leaves the world as it was at the raise, as in Python. *)

Definition M (A : Type) : Type := World -> result A * World.

Definition ret {A} (a : A) : M A := fun w => (Ok a, w).

Definition raise {A} (e : exc) : M A := fun w => (Raise e, w).

Definition bind {A B} (m : M A) (k : A -> M B) : M B :=
  fun w => match m w with
           | (Ok a, w') => k a w'
           | (Raise e, w') => (Raise e, w')
           end.

(** [try: body / except Exception as e: handler(e)] *)
Definition try_except {A} (body : M A) (handler : exc -> M A) : M A :=
  fun w => match body w with
           | (Ok a, w') => (Ok a, w')
           | (Raise e, w') => handler e w'
           end.

#[global] Instance M_ret : MRet M := @ret.
#[global] Instance M_bind : MBind M := fun A B k m => bind m k.

(** [for x in xs: acc = body(acc, x)], stopping at the first exception. *)
Fixpoint for_each {A S} (xs : list A) (acc : S) (body : S -> A -> M S) : M S :=
  match xs with
  | [] => ret acc
  | x :: xs' => acc' ← body acc x; for_each xs' acc' body
  end.

(** *** Effects *)

(** [datetime.now()] *)
Definition now : M datetime :=
  fun w => (Ok (clock w (ticks w)),
            mk_World (files w) (clock w) (S (ticks w)) (uuids w) (draws w) (disk_fault w)).

(** [str(uuid.uuid4())] *)
Definition uuid4_str : M string :=
  fun w => (Ok (uuids w (draws w)),
            mk_World (files w) (clock w) (ticks w) (uuids w) (S (draws w)) (disk_fault w)).

(** [os.path.exists(path)] *)
Definition path_exists (path : string) : M bool :=
  fun w => (Ok (bool_decide (is_Some (files w !! path))), w).

(** [with open(path, "a", encoding="utf-8") as f: f.write(text)] *)
Definition append_text (path : string) (text : string) : M unit :=
  fun w => if disk_fault w then (Raise OSError, w)
           else (Ok tt, set_files (<[path := default "" (files w !! path) +:+ text]> (files w)) w).

(** [with open(path, "r", encoding="utf-8") as f: for line in f: ...] hands
    the loop the lines of the file; a missing file is [FileNotFoundError]. *)
Definition open_lines (path : string) : M (list string) :=
  fun w => match files w !! path with
           | Some content => (Ok (readlines content), w)
           | None => (Raise OSError, w)
           end.

(** [raise]/[return] of a computation that does not touch the world. *)
Definition lift {A} (r : result A) : M A := fun w => (r, w).

(** ** Python operations on parsed values *)

(** [o[k]] with a string [k]: only a [dict] can be indexed by a string. *)
Definition py_getitem (o : json) (k : string) : result json :=
  match o with
  | JDict d => match dict_lookup k d with
               | Some v => Ok v
               | None => Raise (KeyError k)
               end
  | _ => Raise TypeError
  end.

(** [o.get(k, dflt)]: only a [dict] has the method. *)
Definition py_get (o : json) (k : string) (dflt : json) : result json :=
  match o with
  | JDict d => Ok (default dflt (dict_lookup k d))
  | _ => Raise AttributeError
  end.

(** *** Numbers: [int] is unbounded, [float] is binary64, [bool] is an [int] *)

Inductive pynum : Type :=
  | PInt (n : Z)
  | PFloat (f : float).

Definition pynum_json (a : pynum) : json :=
  match a with PInt n => JInt n | PFloat f => JFloat f end.

(** [float(n)]: rounded to nearest even; [OverflowError] past the largest float. *)
Definition float_of_int (n : Z) : result float :=
  match binary_normalize prec emax n 0 false with
  | S754_infinity _ => Raise OverflowError
  | sf => Ok (SF2Prim sf)
  end.

(** [a + v] for a running total [a] and a parsed value [v]. *)
Definition num_add (a : pynum) (v : json) : result pynum :=
  match a, v with
  | PInt x, JInt y => Ok (PInt (x + y))
  | PInt x, JBool b => Ok (PInt (x + Z.b2z b))
  | PInt x, JFloat g =>
      match float_of_int x with Ok f => Ok (PFloat (f + g)%float) | Raise e => Raise e end
  | PFloat f, JInt y =>
      match float_of_int y with Ok g => Ok (PFloat (f + g)%float) | Raise e => Raise e end
  | PFloat f, JBool b =>
      match float_of_int (Z.b2z b) with Ok g => Ok (PFloat (f + g)%float) | Raise e => Raise e end
  | PFloat f, JFloat g => Ok (PFloat (f + g)%float)
  | _, _ => Raise TypeError
  end.

(** *** Set membership: hash and equality

    [None], [bool], [int], [float] and [str] are hashable, [list] and [dict]
    are not.  Numbers compare by value across the three numeric types; the
    only NaN that [json.loads] returns is the one object [json.decoder.NaN],
    which a set finds again by identity. *)

Definition hashable (v : json) : bool :=
  match v with JList _ | JDict _ => false | _ => true end.

(** The exact comparison of a float with an integer. *)
Definition float_eq_int (f : float) (n : Z) : bool :=
  match Prim2SF f with
  | S754_zero _ => n =? 0
  | S754_finite s m e =>
      let sm := if s then Z.neg m else Z.pos m in
      if 0 <=? e then n =? sm * 2 ^ e else sm =? n * 2 ^ (- e)
  | _ => false
  end.

Definition key_eq (a b : json) : bool :=
  match a, b with
  | JNull, JNull => true
  | JStr s, JStr t => String.eqb s t
  | JBool x, JBool y => Bool.eqb x y
  | JBool x, JInt n | JInt n, JBool x => Z.b2z x =? n
  | JInt m, JInt n => m =? n
  | JBool x, JFloat f | JFloat f, JBool x => float_eq_int f (Z.b2z x)
  | JInt n, JFloat f | JFloat f, JInt n => float_eq_int f n
  | JFloat f, JFloat g => (f =? g)%float || (is_nan f && is_nan g)
  | _, _ => false
  end.

(** [s.add(v)] on a set held as the list of its elements. *)
Definition set_add (v : json) (s : list json) : result (list json) :=
  if hashable v then Ok (if existsb (key_eq v) s then s else s ++ [v])
  else Raise TypeError.

(** ** Data models (pydantic) *)

Module MonitoringMetadata.
Record t : Type := mk {
  framesProcessed : Z;
  peopleDetected : Z;
  processingTimeSeconds : float;
  videoSource : string;
  inferenceTimeMs : float;
  totalDetections : Z
}.

(** [.dict()]: the fields in declaration order. *)
Definition dict (m : t) : pydict :=
  [ ("framesProcessed", JInt (framesProcessed m));
    ("peopleDetected", JInt (peopleDetected m));
    ("processingTimeSeconds", JFloat (processingTimeSeconds m));
    ("videoSource", JStr (videoSource m));
    ("inferenceTimeMs", JFloat (inferenceTimeMs m));
    ("totalDetections", JInt (totalDetections m)) ].
End MonitoringMetadata.

Module SummaryLogRequest.
Record t : Type := mk {
  session_id : string;
  summary : string;
  metadata : MonitoringMetadata.t;
  timestamp : option string
}.
End SummaryLogRequest.

Module SummaryLogResponse.
Record t : Type := mk {
  status : string;
  message : string;
  log_id : string;
  timestamp : string
}.
End SummaryLogResponse.

(** [Optional[str]] as a JSON value. *)
Definition json_of_optional_str (o : option string) : json :=
  match o with Some s => JStr s | None => JNull end.

(** ** The handlers

    [json.dumps] and [json.loads] are the library's; the handlers are
    written over any pair of them.  [loads] answers [None] where
    [json.loads] raises.  The [logger] calls write to the process log only
    and are left out, as is the [logs] directory, which the module creates
    when it is loaded. *)

Section Handlers.

Variable dumps : json -> string.
Variable loads : string -> option json.

Definition json_loads (s : string) : M json :=
  lift (match loads s with Some v => Ok v | None => Raise JSONDecodeError end).

(** [get_log_filename]: the path of the file of the current local date. *)
Definition get_log_filename : M string :=
  today ← now;
  mret ("logs/monitoring_logs_" +:+ strftime_ymd today +:+ ".jsonl").

(** [log_to_file]: add the server's timestamp, append one line.  Any
    exception is swallowed and reported as [False]. *)
Definition log_to_file (data : pydict) : M bool :=
  try_except
    (log_filename ← get_log_filename;
     t ← now;
     let data := dict_set "server_timestamp" (JStr (isoformat t)) data in
     _ ← append_text log_filename (dumps (JDict data) +:+ NL);
     mret true)
    (fun e => mret false).

(** [request.timestamp or datetime.now().isoformat()]: [None] and the
    empty string are falsy, and the clock is read only then. *)
Definition resolve_timestamp (ts : option string) : M string :=
  match ts with
  | Some (String c s) => mret (String c s)
  | _ => t ← now; mret (isoformat t)
  end.

(** The dictionary that [log_summary] hands to [log_to_file]. *)
Definition log_data_of (log_id : string) (request : SummaryLogRequest.t)
    (timestamp : string) : pydict :=
  [ ("log_id", JStr log_id);
    ("session_id", JStr (SummaryLogRequest.session_id request));
    ("client_timestamp", json_of_optional_str (SummaryLogRequest.timestamp request));
    ("summary", JStr (SummaryLogRequest.summary request));
    ("metadata", JDict (MonitoringMetadata.dict (SummaryLogRequest.metadata request)));
    ("timestamp", JStr timestamp) ].

(** [POST /api/log-summary], the body of the handler.  The
    [HTTPException] of the [else] branch is raised inside the [try], so the
    [except Exception] clause catches it and raises its own. *)
Definition log_summary (request : SummaryLogRequest.t) : M SummaryLogResponse.t :=
  try_except
    (log_id ← uuid4_str;
     timestamp ← resolve_timestamp (SummaryLogRequest.timestamp request);
     let log_data := log_data_of log_id request timestamp in
     logged ← log_to_file log_data;
     if logged : bool then
       mret (SummaryLogResponse.mk "success" "Summary logged successfully" log_id timestamp)
     else
       raise (HTTPException 500 (Text "Failed to log summary to file")))
    (fun e => raise (HTTPException 500 (FString "Internal server error: " e))).

(** One turn of the reading loop of [get_today_logs]. *)
Definition today_logs_line (logs : list json) (line : string) : M (list json) :=
  if strip_truthy line then
    v ← json_loads line; mret (logs ++ [v])
  else mret logs.

(** [GET /api/logs/today] *)
Definition get_today_logs : M json :=
  try_except
    (log_filename ← get_log_filename;
     found ← path_exists log_filename;
     if negb found then
       mret (JDict [("logs", JList []); ("message", JStr "No logs for today")])
     else
       lines ← open_lines log_filename;
       logs ← for_each lines [] today_logs_line;
       mret (JDict [("logs", JList logs);
                    ("count", JInt (Z.of_nat (length logs)));
                    ("log_file", JStr log_filename)]))
    (fun e => raise (HTTPException 500 (Text "Failed to read logs"))).

(** The four running values of [get_stats]. *)
Record stats_acc : Type := mk_acc {
  total_logs : Z;
  total_frames : pynum;
  total_people : pynum;
  sessions : list json
}.

Definition stats_init : stats_acc := mk_acc 0 (PInt 0) (PInt 0) [].

(** The statements under [if line.strip():], once the line is parsed. *)
Definition stats_entry (acc : stats_acc) (log_entry : json) : result stats_acc :=
  let total_logs := total_logs acc + 1 in
  match py_getitem log_entry "session_id" with
  | Raise e => Raise e
  | Ok sid =>
  match set_add sid (sessions acc) with
  | Raise e => Raise e
  | Ok sessions =>
  match py_get log_entry "metadata" (JDict []) with
  | Raise e => Raise e
  | Ok metadata =>
  match py_get metadata "frames_processed" (JInt 0) with
  | Raise e => Raise e
  | Ok frames =>
  match num_add (total_frames acc) frames with
  | Raise e => Raise e
  | Ok total_frames =>
  match py_get metadata "people_detected" (JInt 0) with
  | Raise e => Raise e
  | Ok people =>
  match num_add (total_people acc) people with
  | Raise e => Raise e
  | Ok total_people => Ok (mk_acc total_logs total_frames total_people sessions)
  end end end end end end end.

(** One turn of the loop of [get_stats]. *)
Definition stats_line (acc : stats_acc) (line : string) : M stats_acc :=
  if strip_truthy line then
    log_entry ← json_loads line; lift (stats_entry acc log_entry)
  else mret acc.

Definition stats_json (acc : stats_acc) : json :=
  JDict [("total_logs", JInt (total_logs acc));
         ("unique_sessions", JInt (Z.of_nat (length (sessions acc))));
         ("total_frames_processed", pynum_json (total_frames acc));
         ("total_people_detected", pynum_json (total_people acc))].

(** [GET /api/stats] *)
Definition get_stats : M json :=
  try_except
    (log_filename ← get_log_filename;
     found ← path_exists log_filename;
     if negb found then
       mret (JDict [("message", JStr "No logs for today"); ("stats", JDict [])])
     else
       lines ← open_lines log_filename;
       acc ← for_each lines stats_init stats_line;
       mret (JDict [("stats", stats_json acc); ("log_file", JStr log_filename)]))
    (fun e => raise (HTTPException 500 (Text "Failed to calculate stats"))).

End Handlers.

(** ** The route of [log_summary]

    The handler is declared with a parameter [request: SummaryLogRequest],
    so FastAPI builds the request from the JSON body before it calls the
    handler, and answers a body that does not fit the model with
    [RequestValidationError] (status 422) without calling it.  How one JSON
    value is read as a [str], an [int] or a [float] field is pydantic's
    business and differs between its versions; the route is written over
    any three such readers. *)

Section Route.

Variable dumps : json -> string.
Variable loads : string -> option json.
Variable as_str : json -> option string.
Variable as_int : json -> option Z.
Variable as_float : json -> option float.

(** A required field: present, and of the declared type. *)
Definition required {A} (read : json -> option A) (d : pydict) (k : string) : option A :=
  match dict_lookup k d with
  | Some v => read v
  | None => None
  end.

(** [Optional[str] = None]: absent or [null] is [None]. *)
Definition optional_str (d : pydict) (k : string) : option (option string) :=
  match dict_lookup k d with
  | None | Some JNull => Some None
  | Some v => match as_str v with Some s => Some (Some s) | None => None end
  end.

Definition validate_metadata (v : json) : option MonitoringMetadata.t :=
  match v with
  | JDict d =>
      framesProcessed ← required as_int d "framesProcessed";
      peopleDetected ← required as_int d "peopleDetected";
      processingTimeSeconds ← required as_float d "processingTimeSeconds";
      videoSource ← required as_str d "videoSource";
      inferenceTimeMs ← required as_float d "inferenceTimeMs";
      totalDetections ← required as_int d "totalDetections";
      Some (MonitoringMetadata.mk framesProcessed peopleDetected processingTimeSeconds
              videoSource inferenceTimeMs totalDetections)
  | _ => None
  end.

Definition validate_request (body : json) : option SummaryLogRequest.t :=
  match body with
  | JDict d =>
      session_id ← required as_str d "session_id";
      summary ← required as_str d "summary";
      metadata ← required validate_metadata d "metadata";
      timestamp ← optional_str d "timestamp";
      Some (SummaryLogRequest.mk session_id summary metadata timestamp)
  | _ => None
  end.

(** [POST /api/log-summary] as the client sees it. *)
Definition post_log_summary (body : json) : M SummaryLogResponse.t :=
  match validate_request body with
  | Some request => log_summary dumps request
  | None => raise RequestValidationError
  end.

End Route.

(** The status line of the answer: FastAPI's exception handlers give an
    [HTTPException] its own code and a validation error 422; any other
    exception that leaves a handler is answered with 500. *)
Definition status_of {A} (r : result A) : Z :=
  match r with
  | Ok _ => 200
  | Raise (HTTPException code _) => code
  | Raise RequestValidationError => 422
  | Raise _ => 500
  end.

Definition is_client_error (code : Z) : bool := (400 <=? code) && (code <? 500).
Definition is_server_error (code : Z) : bool := (500 <=? code) && (code <? 600).

(** ** A reference codec

    A printer in the layout of [json.dumps] (", " and ": " separators, every
    character outside " ".."~" escaped) and a reader of that layout.  A
    finite float is printed by its exact decimal expansion.  The theorems
    below hold for any codec; this one runs them on concrete records. *)

Module RefJson.

Definition DQ : ascii := ascii_of_N 34.
Definition BS : ascii := ascii_of_N 92.

Definition hex_digit (n : N) : ascii :=
  ascii_of_N (if (n <? 10)%N then 48 + n else 87 + n)%N.

(** [\u00XX] for a code point below 256. *)
Definition u_escape (c : ascii) : string :=
  let n := N_of_ascii c in
  "\u00" +:+ String (hex_digit (n / 16)) (String (hex_digit (n mod 16)) "").

Definition escape_char (c : ascii) : string :=
  let n := N_of_ascii c in
  if (n =? 34)%N then String BS (String DQ "") else
  if (n =? 92)%N then "\\" else
  if (n =? 10)%N then "\n" else
  if (n =? 13)%N then "\r" else
  if (n =? 9)%N then "\t" else
  if (n =? 8)%N then "\b" else
  if (n =? 12)%N then "\f" else
  if ((32 <=? n) && (n <=? 126))%N then String c "" else u_escape c.

Fixpoint escape (s : string) : string :=
  match s with
  | EmptyString => ""
  | String c s' => escape_char c +:+ escape s'
  end.

Definition quote (s : string) : string :=
  String DQ (escape s) +:+ String DQ "".

(** [m * 2^e] with the fraction in lowest terms. *)
Fixpoint reduce (m : positive) (e : Z) : positive * Z :=
  match m with
  | xO m' => if e <? 0 then reduce m' (e + 1) else (m, e)
  | _ => (m, e)
  end.

(** The exact decimal expansion of [m * 2^e]. *)
Definition decimal_of_finite (s : bool) (m : positive) (e : Z) : string :=
  let '(m, e) := reduce m e in
  (if s then "-" else "") +:+
  (if 0 <=? e then pretty (Z.pos m * 2 ^ e) +:+ ".0"
   else
     let k := Z.to_nat (- e) in
     let n := Z.pos m * 5 ^ (- e) in
     let ip := n / 10 ^ (- e) in
     let fp := n mod 10 ^ (- e) in
     pretty ip +:+ "." +:+ pad_left k (pretty fp)).

Definition float_repr (f : float) : string :=
  match Prim2SF f with
  | S754_nan => "NaN"
  | S754_infinity s => if s then "-Infinity" else "Infinity"
  | S754_zero s => if s then "-0.0" else "0.0"
  | S754_finite s m e => decimal_of_finite s m e
  end.

Fixpoint join (sep : string) (l : list string) : string :=
  match l with
  | [] => ""
  | [x] => x
  | x :: l' => x +:+ sep +:+ join sep l'
  end.

Fixpoint dumps (v : json) : string :=
  match v with
  | JNull => "null"
  | JBool b => if b then "true" else "false"
  | JInt n => pretty n
  | JFloat f => float_repr f
  | JStr s => quote s
  | JList l => "[" +:+ join ", " (map dumps l) +:+ "]"
  | JDict d =>
      "{" +:+ join ", " (map (fun kv => quote (fst kv) +:+ ": " +:+ dumps (snd kv)) d) +:+ "}"
  end.

(** *** Reading *)

Definition is_ws (c : ascii) : bool :=
  let n := N_of_ascii c in ((n =? 32) || (n =? 9) || (n =? 10) || (n =? 13))%N.

Fixpoint skip_ws (s : string) : string :=
  match s with
  | String c s' => if is_ws c then skip_ws s' else s
  | EmptyString => s
  end.

Fixpoint strip_prefix (p s : string) : option string :=
  match p, s with
  | EmptyString, _ => Some s
  | String a p', String b s' => if Ascii.eqb a b then strip_prefix p' s' else None
  | _, _ => None
  end.

Definition digit_val (c : ascii) : option Z :=
  let n := N_of_ascii c in
  if ((48 <=? n) && (n <=? 57))%N then Some (Z.of_N (n - 48)) else None.

Definition hex_val (c : ascii) : option N :=
  let n := N_of_ascii c in
  if ((48 <=? n) && (n <=? 57))%N then Some (n - 48)%N
  else if ((97 <=? n) && (n <=? 102))%N then Some (n - 87)%N
  else if ((65 <=? n) && (n <=? 70))%N then Some (n - 55)%N
  else None.

(** The longest run of digits: its value, its length and what follows. *)
Fixpoint digits (s : string) (acc : Z) (cnt : nat) : Z * nat * string :=
  match s with
  | String c s' =>
      match digit_val c with
      | Some d => digits s' (10 * acc + d) (S cnt)
      | None => (acc, cnt, s)
      end
  | EmptyString => (acc, cnt, s)
  end.

(** The character that follows a backslash. *)
Definition unescape (s : string) : option (ascii * string) :=
  match s with
  | String e r =>
      let n := N_of_ascii e in
      if (n =? 34)%N then Some (DQ, r) else
      if (n =? 92)%N then Some (BS, r) else
      if (n =? 47)%N then Some (e, r) else
      if (n =? 110)%N then Some (LF, r) else
      if (n =? 114)%N then Some (CR, r) else
      if (n =? 116)%N then Some (ascii_of_N 9, r) else
      if (n =? 98)%N then Some (ascii_of_N 8, r) else
      if (n =? 102)%N then Some (ascii_of_N 12, r) else
      if (n =? 117)%N then
        match r with
        | String a (String b (String c (String d r'))) =>
            match hex_val a, hex_val b, hex_val c, hex_val d with
            | Some 0%N, Some 0%N, Some x, Some y => Some (ascii_of_N (16 * x + y), r')
            | _, _, _, _ => None
            end
        | _ => None
        end
      else None
  | EmptyString => None
  end.

(** The characters of a string literal, after its opening quote. *)
Fixpoint chars (fuel : nat) (s : string) : option (string * string) :=
  match fuel, s with
  | S fuel', String c r =>
      if Ascii.eqb c DQ then Some ("", r)
      else if Ascii.eqb c BS then
        match unescape r with
        | Some (x, r') =>
            match chars fuel' r' with
            | Some (t, rest) => Some (String x t, rest)
            | None => None
            end
        | None => None
        end
      else if (N_of_ascii c <? 32)%N then None
      else match chars fuel' r with
           | Some (t, rest) => Some (String c t, rest)
           | None => None
           end
  | _, _ => None
  end.

(** [n / 10^k] as a float: exact when the quotient is a binary fraction. *)
Definition float_of_decimal (neg : bool) (n : Z) (k : nat) : float :=
  let kz := Z.of_nat k in
  let sf :=
    if n =? 0 then S754_zero neg
    else if n mod 5 ^ kz =? 0 then
      binary_normalize prec emax ((if neg then -1 else 1) * (n / 5 ^ kz)) (- kz) false
    else
      SFdiv prec emax
        (binary_normalize prec emax ((if neg then -1 else 1) * n) 0 false)
        (binary_normalize prec emax (10 ^ kz) 0 false) in
  SF2Prim sf.

Definition number (s : string) : option (json * string) :=
  let '(neg, s1) := match strip_prefix "-" s with
                    | Some r => (true, r)
                    | None => (false, s)
                    end in
  match strip_prefix "Infinity" s1 with
  | Some r => Some (JFloat (if neg then neg_infinity else infinity), r)
  | None =>
      let '(ip, ni, s2) := digits s1 0 O in
      match ni with
      | O => None
      | _ =>
          match strip_prefix "." s2 with
          | Some s3 =>
              let '(all, nf, s4) := digits s3 ip O in
              match nf with
              | O => None
              | _ => Some (JFloat (float_of_decimal neg all nf), s4)
              end
          | None => Some (JInt (if neg then - ip else ip), s2)
          end
      end
  end.

(** A member before the members [d]: a later member of the same name
    gives the value, the first one the place. *)
Definition first_member (k : string) (v : json) (d : pydict) : pydict :=
  (k, default v (dict_lookup k d)) :: filter (fun kv => negb (String.eqb k (fst kv))) d.

Fixpoint value (fuel : nat) (s : string) : option (json * string) :=
  match fuel with
  | O => None
  | S fuel' =>
      match skip_ws s with
      | String c r =>
          let n := N_of_ascii c in
          if (n =? 123)%N then
            match skip_ws r with
            | String c' r' =>
                if (N_of_ascii c' =? 125)%N then Some (JDict [], r')
                else match members fuel' (skip_ws r) with
                     | Some (d, rest) => Some (JDict d, rest)
                     | None => None
                     end
            | EmptyString => None
            end
          else if (n =? 91)%N then
            match skip_ws r with
            | String c' r' =>
                if (N_of_ascii c' =? 93)%N then Some (JList [], r')
                else match elements fuel' r with
                     | Some (l, rest) => Some (JList l, rest)
                     | None => None
                     end
            | EmptyString => None
            end
          else if Ascii.eqb c DQ then
            match chars (String.length r) r with
            | Some (t, rest) => Some (JStr t, rest)
            | None => None
            end
          else
            match strip_prefix "null" (String c r), strip_prefix "true" (String c r),
                  strip_prefix "false" (String c r), strip_prefix "NaN" (String c r) with
            | Some rest, _, _, _ => Some (JNull, rest)
            | _, Some rest, _, _ => Some (JBool true, rest)
            | _, _, Some rest, _ => Some (JBool false, rest)
            | _, _, _, Some rest => Some (JFloat nan, rest)
            | _, _, _, _ => number (String c r)
            end
      | EmptyString => None
      end
  end
with elements (fuel : nat) (s : string) : option (list json * string) :=
  match fuel with
  | O => None
  | S fuel' =>
      match value fuel' s with
      | Some (v, r) =>
          match skip_ws r with
          | String c r' =>
              if (N_of_ascii c =? 44)%N then
                match elements fuel' r' with
                | Some (l, rest) => Some (v :: l, rest)
                | None => None
                end
              else if (N_of_ascii c =? 93)%N then Some ([v], r')
              else None
          | EmptyString => None
          end
      | None => None
      end
  end
with members (fuel : nat) (s : string) : option (pydict * string) :=
  match fuel with
  | O => None
  | S fuel' =>
      match s with
      | String q r =>
          if Ascii.eqb q DQ then
            match chars (String.length r) r with
            | Some (k, r1) =>
                match skip_ws r1 with
                | String c r2 =>
                    if (N_of_ascii c =? 58)%N then
                      match value fuel' r2 with
                      | Some (v, r3) =>
                          match skip_ws r3 with
                          | String c' r4 =>
                              if (N_of_ascii c' =? 44)%N then
                                match members fuel' (skip_ws r4) with
                                | Some (d, rest) => Some (first_member k v d, rest)
                                | None => None
                                end
                              else if (N_of_ascii c' =? 125)%N then Some ([(k, v)], r4)
                              else None
                          | EmptyString => None
                          end
                      | None => None
                      end
                    else None
                | EmptyString => None
                end
            | None => None
            end
          else None
      | EmptyString => None
      end
  end.

Definition loads (s : string) : option json :=
  match value (S (String.length s)) s with
  | Some (v, rest) => match skip_ws rest with
                      | EmptyString => Some v
                      | _ => None
                      end
  | None => None
  end.

End RefJson.

(** * The vocabulary of the properties

    Definitions that the statements below use: what a well-formed text is,
    what a handler leaves behind, and what its loops compute. *)

(** ** Text *)

(** No line terminator inside: what [json.dumps] promises of its output. *)
Fixpoint single_line (s : string) : bool :=
  match s with
  | EmptyString => true
  | String c s' => negb (Ascii.eqb c LF) && negb (Ascii.eqb c CR) && single_line s'
  end.

(** The content is empty or ends with a line feed. *)
Definition terminated (content : string) : Prop :=
  content = "" \/ exists a, content = a +:+ NL.

(** The non-blank lines of a text, in order. *)
Definition nonblank_lines (content : string) : list string :=
  List.filter strip_truthy (readlines content).

(** ** Worlds and paths *)

(** The world after one reading of the clock. *)
Definition tick (w : World) : World :=
  mk_World (files w) (clock w) (S (ticks w)) (uuids w) (draws w) (disk_fault w).

(** The world after one UUID. *)
Definition draw (w : World) : World :=
  mk_World (files w) (clock w) (ticks w) (uuids w) (S (draws w)) (disk_fault w).

(** The file of the day of [d]. *)
Definition day_file (d : datetime) : string :=
  "logs/monitoring_logs_" +:+ strftime_ymd d +:+ ".jsonl".

(** The file that a handler entered in world [w] takes for today's. *)
Definition today_path (w : World) : string := day_file (clock w (ticks w)).

(** ** Loops *)

(** A loop whose body leaves the world alone is a fold over results. *)
Fixpoint fold_result {A S} (f : S -> A -> result S) (xs : list A) (acc : S) : result S :=
  match xs with
  | [] => Ok acc
  | x :: xs' => match f acc x with
                | Ok acc' => fold_result f xs' acc'
                | Raise e => Raise e
                end
  end.

Section Vocabulary.

Variable dumps : json -> string.
Variable loads : string -> option json.

(** The loop pattern shared by both readers: skip blanks, parse, act. *)
Definition per_line {S} (g : S -> json -> result S) (acc : S) (line : string) : result S :=
  if strip_truthy line then
    match loads line with
    | Some v => g acc v
    | None => Raise JSONDecodeError
    end
  else Ok acc.

(** What the loop of [get_today_logs] does with one line. *)
Definition read_line (logs : list json) (line : string) : result (list json) :=
  if strip_truthy line then
    match loads line with
    | Some v => Ok (logs ++ [v])
    | None => Raise JSONDecodeError
    end
  else Ok logs.

(** What the loop of [get_stats] does with one line. *)
Definition count_line (acc : stats_acc) (line : string) : result stats_acc :=
  if strip_truthy line then
    match loads line with
    | Some v => stats_entry acc v
    | None => Raise JSONDecodeError
    end
  else Ok acc.

(** [json.loads] reads back what [json.dumps] wrote for [v], and the text
    is one non-blank line. *)
Definition codec_ok (v : json) : Prop :=
  loads (dumps v +:+ NL) = Some v
  /\ single_line (dumps v) = true
  /\ strip_truthy (dumps v) = true.

(** Every non-blank line of the text is valid JSON. *)
Definition readable (content : string) : Prop :=
  forall line, In line (nonblank_lines content) -> loads line <> None.

(** The day's file that holds the given records, one line each, as
    [log_to_file] appends them. *)
Fixpoint file_of (records : list pydict) : string :=
  match records with
  | [] => ""
  | r :: rest => dumps (JDict r) +:+ NL +:+ file_of rest
  end.

End Vocabulary.

(** ** Replies *)

Definition no_logs_today : json :=
  JDict [("logs", JList []); ("message", JStr "No logs for today")].

Definition logs_reply (logs : list json) (log_file : string) : json :=
  JDict [("logs", JList logs);
         ("count", JInt (Z.of_nat (length logs)));
         ("log_file", JStr log_file)].

Definition no_stats_today : json :=
  JDict [("message", JStr "No logs for today"); ("stats", JDict [])].

Definition stats_reply (acc : stats_acc) (log_file : string) : json :=
  JDict [("stats", stats_json acc); ("log_file", JStr log_file)].

Definition read_failed : exc := HTTPException 500 (Text "Failed to read logs").
Definition stats_failed : exc := HTTPException 500 (Text "Failed to calculate stats").

Definition log_failed : exc :=
  HTTPException 500
    (FString "Internal server error: "
       (HTTPException 500 (Text "Failed to log summary to file"))).

(** The reply is a success whose [stats] object has [field] equal to [v]. *)
Definition reports (r : result json) (field : string) (v : json) : Prop :=
  exists reply stats,
    r = Ok reply /\ py_getitem reply "stats" = Ok stats /\ py_getitem stats field = Ok v.

(** ** What [log_summary] writes *)

(** The value of [request.timestamp or datetime.now().isoformat()] in [w]. *)
Definition effective_timestamp (w : World) (ts : option string) : string :=
  match ts with
  | Some (String c s) => String c s
  | _ => isoformat (clock w (ticks w))
  end.

(** The world once the timestamp is resolved: the clock was read unless
    the client sent a non-empty timestamp. *)
Definition after_resolve (w : World) (ts : option string) : World :=
  match ts with
  | Some (String _ _) => w
  | _ => tick w
  end.

(** The record as [log_to_file] serialises it. *)
Definition persisted_record (log_id : string) (request : SummaryLogRequest.t)
    (timestamp server_timestamp : string) : pydict :=
  dict_set "server_timestamp" (JStr server_timestamp) (log_data_of log_id request timestamp).

(** The record that [log_summary request] writes when entered in [w]. *)
Definition record_of (w : World) (request : SummaryLogRequest.t) : pydict :=
  let ts := SummaryLogRequest.timestamp request in
  let w1 := after_resolve w ts in
  persisted_record (uuids w (draws w)) request (effective_timestamp w ts)
    (isoformat (clock w (S (ticks w1)))).

(** The file that [log_summary request] appends to when entered in [w]. *)
Definition target_path (w : World) (request : SummaryLogRequest.t) : string :=
  today_path (after_resolve w (SummaryLogRequest.timestamp request)).

(** The world that [log_summary request] leaves, apart from the files. *)
Definition after_log_summary (w : World) (request : SummaryLogRequest.t) : World :=
  tick (tick (after_resolve (draw w) (SummaryLogRequest.timestamp request))).

(** [sessions.add(sid)] for a hashable [sid]. *)
Definition add_session (sid : json) (s : list json) : list json :=
  if existsb (key_eq sid) s then s else s ++ [sid].

(** A parsed record with a hashable [session_id] and no [metadata]. *)
Definition lacks_metadata (e : json) : Prop :=
  exists d sid, e = JDict d /\ dict_lookup "session_id" d = Some sid
                /\ hashable sid = true /\ dict_lookup "metadata" d = None.

(** ** Bodies that lack a field *)

(** The fields without a default, of the request and of its metadata. *)
Definition request_fields : list string := ["session_id"; "summary"; "metadata"].
Definition metadata_fields : list string :=
  ["framesProcessed"; "peopleDetected"; "processingTimeSeconds";
   "videoSource"; "inferenceTimeMs"; "totalDetections"].

(** The body is an object that lacks a required field, at the top or
    inside its metadata object. *)
Definition missing_required_field (body : json) : Prop :=
  match body with
  | JDict d =>
      (exists k, In k request_fields /\ dict_lookup k d = None)
      \/ (exists m k, dict_lookup "metadata" d = Some (JDict m)
                      /\ In k metadata_fields /\ dict_lookup k m = None)
  | _ => False
  end.

(** * The health handlers

    The two handlers of [app.py] that carry no data.  The entries of a dict
    display are evaluated from left to right, so [health_check] reads the
    clock for its timestamp before [get_log_filename] reads it again. *)

(** [GET /] *)
Definition root : M json :=
  t ← now;
  mret (JDict [("message", JStr "In-Car Monitoring Backend is running");
               ("timestamp", JStr (isoformat t));
               ("status", JStr "healthy")]).

(** [GET /health] *)
Definition health_check : M json :=
  t ← now;
  current_log_file ← get_log_filename;
  mret (JDict [("status", JStr "healthy");
               ("timestamp", JStr (isoformat t));
               ("logs_directory", JStr "logs");
               ("current_log_file", JStr current_log_file)]).

(** * More vocabulary *)

(** The clock of [w] shows the date [date] at every reading. *)
Definition one_day (w : World) (date : string) : Prop :=
  forall n, strftime_ymd (clock w n) = date.

(** A client that posts the requests one after the other and stops at the
    first failure. *)
Fixpoint log_each (dumps : json -> string) (requests : list SummaryLogRequest.t)
    : M (list SummaryLogResponse.t) :=
  match requests with
  | [] => mret []
  | q :: qs =>
      reply ← log_summary dumps q;
      replies ← log_each dumps qs;
      mret (reply :: replies)
  end.

(** The records that such a client has written when every call succeeded. *)
Fixpoint records_of_run (w : World) (requests : list SummaryLogRequest.t) : list pydict :=
  match requests with
  | [] => []
  | q :: qs => record_of w q :: records_of_run (after_log_summary w q) qs
  end.

(** [int], [float] and [bool]: what [+=] on a number accepts. *)
Definition is_number (v : json) : bool :=
  match v with
  | JBool _ | JInt _ | JFloat _ => true
  | _ => false
  end.

Definition is_dict (v : json) : bool :=
  match v with JDict _ => true | _ => false end.

(** A parsed line that [get_stats] cannot count: not an object, or an
    object whose [session_id] is a list or an object, whose [metadata] is
    not an object, or whose frame or people count is not a number. *)
Definition unfit_for_stats (e : json) : Prop :=
  is_dict e = false
  \/ (exists d sid, e = JDict d /\ dict_lookup "session_id" d = Some sid
                    /\ hashable sid = false)
  \/ (exists d v, e = JDict d /\ dict_lookup "metadata" d = Some v /\ is_dict v = false)
  \/ (exists d m k x, e = JDict d /\ dict_lookup "metadata" d = Some (JDict m)
                      /\ (k = "frames_processed" \/ k = "people_detected")
                      /\ dict_lookup k m = Some x /\ is_number x = false).

(** The integer that [metadata.get(k, 0)] contributes, when it is one. *)
Definition int_count (metadata : pydict) (k : string) : option Z :=
  match dict_lookup k metadata with
  | None => Some 0
  | Some (JInt n) => Some n
  | Some _ => None
  end.

(** A parsed record that [get_stats] counts with integer contributions
    [frames] and [people]: an object with a hashable [session_id] whose
    metadata, if any, is an object with integer (or no) counts. *)
Definition counts_as (e : json) (frames people : Z) : Prop :=
  exists d sid m,
    e = JDict d /\ dict_lookup "session_id" d = Some sid /\ hashable sid = true
    /\ default (JDict []) (dict_lookup "metadata" d) = JDict m
    /\ int_count m "frames_processed" = Some frames
    /\ int_count m "people_detected" = Some people.

(** The sum of a list of integers. *)
Definition sum_Z (l : list Z) : Z := fold_right Z.add 0 l.

(** ** Concrete worlds and requests *)

Module Examples.

(** A clock that stays on 7 March 2024. *)
Definition clock_day (n : nat) : datetime :=
  mk_datetime 2024 3 7 12 0 (Nat.modulo n 60) 0.

(** A clock whose first two readings are just before midnight. *)
Definition clock_midnight (n : nat) : datetime :=
  if (n <? 2)%nat then mk_datetime 2024 3 7 23 59 59 999
  else mk_datetime 2024 3 8 0 0 0 n.

Definition uuids0 (n : nat) : string :=
  "3f2b8c1e-5d4a-4c6b-9e7f-" +:+ zero_pad 12 n.

(** No file yet, a working disk. *)
Definition world0 : World := mk_World ∅ clock_day 0 uuids0 0 false.

Definition with_file (content : string) (w : World) : World :=
  set_files (<[today_path w := content]> (files w)) w.

Definition md : MonitoringMetadata.t :=
  MonitoringMetadata.mk 120 3 1.5 "front_camera" 12.25 7.

Definition request (session_id : string) (timestamp : option string) : SummaryLogRequest.t :=
  SummaryLogRequest.mk session_id "Two passengers, driver attentive" md timestamp.

(** The line that [log_summary] writes for a request entered in [world0]. *)
Definition line_of (session_id : string) : string :=
  RefJson.dumps (JDict (record_of world0 (request session_id None))) +:+ NL.

(** Two records with a blank line and a line of spaces between them. *)
Definition two_records : string :=
  line_of "a" +:+ NL +:+ "   " +:+ NL +:+ line_of "b".

(** A record followed by a line that is not JSON. *)
Definition damaged : string := line_of "a" +:+ "{not json" +:+ NL.

Definition sent_at : string := "2024-03-07T11:59:58".

(** The world after the request was logged in [world0]. *)
Definition logged_at : World :=
  snd (log_summary RefJson.dumps (request "a" (Some sent_at)) world0).

Definition reply_at : SummaryLogResponse.t :=
  SummaryLogResponse.mk "success" "Summary logged successfully"
    "3f2b8c1e-5d4a-4c6b-9e7f-000000000000" sent_at.

(** The world after the request of session "a" was logged in [world0]. *)
Definition logged : World := snd (log_summary RefJson.dumps (request "a" None) world0).

Definition reply_a : SummaryLogResponse.t :=
  SummaryLogResponse.mk "success" "Summary logged successfully"
    "3f2b8c1e-5d4a-4c6b-9e7f-000000000000" "2024-03-07T12:00:00".

(** A world whose clock passes midnight while the request is handled. *)
Definition world_midnight : World := mk_World ∅ clock_midnight 0 uuids0 0 false.

(** A world whose day file holds a line that is not JSON. *)
Definition world_damaged : World := with_file ("{not json" +:+ NL) world0.

(** Three requests handled one after the other, starting with no file. *)
Definition w1 : World := snd (log_summary RefJson.dumps (request "a" None) world0).
Definition w2 : World := snd (log_summary RefJson.dumps (request "a" (Some "2024-03-07T11:59:58")) w1).
Definition w3 : World := snd (log_summary RefJson.dumps (request "b" (Some "")) w2).

Definition three_records : list pydict :=
  [record_of world0 (request "a" None);
   record_of w1 (request "a" (Some "2024-03-07T11:59:58"));
   record_of w2 (request "b" (Some ""))].

(** A record with no metadata, and a line whose object has no session. *)
Definition bare_record : pydict := [("session_id", JStr "a")].
Definition no_session : string := RefJson.dumps (JDict [("summary", JStr "x")]) +:+ NL.
Definition bare_file : string := RefJson.dumps (JDict bare_record) +:+ NL.

(** Readers that take a JSON value of the field's own type only. *)
Definition strict_str (v : json) : option string :=
  match v with JStr s => Some s | _ => None end.
Definition strict_int (v : json) : option Z :=
  match v with JInt n => Some n | _ => None end.
Definition strict_float (v : json) : option float :=
  match v with JFloat f => Some f | _ => None end.

Definition metadata_body : json :=
  JDict (MonitoringMetadata.dict md).

(** A body with everything but [session_id]. *)
Definition body_without_session : json :=
  JDict [("summary", JStr "Two passengers, driver attentive"); ("metadata", metadata_body)].

End Examples.

Module MoreExamples.
Import Examples.


(** A world whose UUID source counts. *)
Definition world_counting : World := mk_World ∅ clock_day 0 (fun n => pretty n) 0 false.

(** Data that already has a [server_timestamp]. *)
Definition stale_data : pydict :=
  [("session_id", JStr "a"); ("server_timestamp", JStr "stale")].

Definition day_requests : list SummaryLogRequest.t :=
  [request "a" None; request "b" (Some sent_at); request "a" (Some "")].

(** A reader whose clock shows the next day. *)
Definition next_day_reader : World :=
  mk_World ∅ (fun _ => mk_datetime 2024 3 8 9 0 0 0) 0 uuids0 0 false.

(** A line that holds a list, after a record. *)
Definition list_line : string := RefJson.dumps (JList [JInt 1; JInt 2]) +:+ NL.
Definition unfit_file : string := line_of "a" +:+ list_line.

(** A record with counts under the names that [get_stats] reads. *)
Definition counted (sid : string) (frames people : Z) : json :=
  JDict [("session_id", JStr sid);
         ("metadata", JDict [("frames_processed", JInt frames);
                             ("people_detected", JInt people)])].

Definition counted_file : string :=
  RefJson.dumps (counted "a" 10 2) +:+ NL
  +:+ RefJson.dumps (counted "b" 5 1) +:+ NL +:+ bare_file.

End MoreExamples.

(** * Properties *)

(** ** Text *)

Lemma append_cons (x : ascii) (a b : string) : String x a +:+ b = String x (a +:+ b).
Proof. reflexivity. Qed.

Lemma append_nil_l (a : string) : "" +:+ a = a.
Proof. reflexivity. Qed.

Lemma append_assoc (a b c : string) : (a +:+ b) +:+ c = a +:+ (b +:+ c).
Proof.
  induction a as [|x a IH]; [reflexivity|].
  rewrite !append_cons. now f_equal.
Qed.

Lemma append_nil_r (a : string) : a +:+ "" = a.
Proof.
  induction a as [|x a IH]; [reflexivity|].
  rewrite append_cons. now f_equal.
Qed.

Lemma all_space_app (a b : string) : all_space (a +:+ b) = all_space a && all_space b.
Proof.
  induction a as [|x a IH]; [reflexivity|].
  rewrite append_cons. cbn. now rewrite IH, andb_assoc.
Qed.

Lemma strip_truthy_NL (l : string) : strip_truthy (l +:+ NL) = strip_truthy l.
Proof.
  unfold strip_truthy. rewrite all_space_app.
  replace (all_space NL) with true by reflexivity. now rewrite andb_true_r.
Qed.

(** A complete line at the head of the text is the first line read. *)
Lemma lines_from_line (l : string) : forall cur rest,
  single_line l = true ->
  lines_from cur (l +:+ NL +:+ rest) = (cur +:+ l +:+ NL) :: lines_from "" rest.
Proof.
  induction l as [|c l IH]; intros cur rest Hl.
  - reflexivity.
  - simpl in Hl. apply andb_prop in Hl as [Hc Hl]. apply andb_prop in Hc as [Hlf Hcr].
    apply negb_true_iff in Hlf, Hcr.
    change (String c l +:+ NL +:+ rest) with (String c (l +:+ NL +:+ rest)).
    cbn [lines_from]. rewrite Hlf, Hcr, IH by assumption.
    now rewrite append_assoc.
Qed.

(** Text after a terminated prefix is read from a fresh line. *)
Lemma lines_from_terminated (n : nat) : forall a cur b,
  (String.length a <= n)%nat ->
  lines_from cur ((a +:+ NL) +:+ b) = lines_from cur (a +:+ NL) ++ lines_from "" b.
Proof.
  induction n as [|n IH]; intros a cur b Hn.
  - destruct a; [reflexivity | simpl in Hn; lia].
  - destruct a as [|c a]; [reflexivity|].
    simpl in Hn.
    change ((String c a +:+ NL) +:+ b) with (String c ((a +:+ NL) +:+ b)).
    change (String c a +:+ NL) with (String c (a +:+ NL)).
    cbn [lines_from].
    destruct (Ascii.eqb c LF).
    { rewrite IH by lia. reflexivity. }
    destruct (Ascii.eqb c CR).
    2:{ apply IH. lia. }
    destruct a as [|c' a].
    { reflexivity. }
    change ((String c' a +:+ NL) +:+ b) with (String c' ((a +:+ NL) +:+ b)).
    change (String c' a +:+ NL) with (String c' (a +:+ NL)).
    cbn iota. simpl in Hn.
    destruct (Ascii.eqb c' LF).
    { rewrite IH by lia. reflexivity. }
    change (String c' ((a +:+ NL) +:+ b)) with ((String c' a +:+ NL) +:+ b).
    change (String c' (a +:+ NL)) with (String c' a +:+ NL).
    rewrite IH by (simpl; lia). reflexivity.
Qed.

Lemma lines_from_last (l cur : string) :
  single_line l = true -> lines_from cur (l +:+ NL) = [cur +:+ l +:+ NL].
Proof.
  intros Hl. pose proof (lines_from_line l cur "" Hl) as H.
  now rewrite append_nil_r in H.
Qed.

Lemma readlines_append (old l : string) :
  terminated old -> single_line l = true ->
  readlines (old +:+ l +:+ NL) = readlines old ++ [l +:+ NL].
Proof.
  intros [->|[a ->]] Hl; unfold readlines.
  - rewrite append_nil_l. rewrite lines_from_last by assumption. reflexivity.
  - rewrite (lines_from_terminated (String.length a)) by lia.
    rewrite (lines_from_last l) by assumption. reflexivity.
Qed.

(** ** Running the handlers *)

Lemma for_each_pure {A S} (body : S -> A -> M S) (f : S -> A -> result S) :
  (forall acc x w, body acc x w = (f acc x, w)) ->
  forall xs acc w, for_each xs acc body w = (fold_result f xs acc, w).
Proof.
  intros Hbody xs. induction xs as [|x xs IH]; intros acc w; [reflexivity|].
  cbn [for_each fold_result]. unfold mbind, M_bind, bind. rewrite Hbody.
  destruct (f acc x) as [acc'|e]; [apply IH | reflexivity].
Qed.

Lemma fold_result_app {A S} (f : S -> A -> result S) (xs ys : list A) (acc : S) :
  fold_result f (xs ++ ys) acc =
  match fold_result f xs acc with
  | Ok acc' => fold_result f ys acc'
  | Raise e => Raise e
  end.
Proof.
  revert acc. induction xs as [|x xs IH]; intros acc; [reflexivity|].
  cbn [app fold_result]. destruct (f acc x); [apply IH | reflexivity].
Qed.

Section Runs.

Variable dumps : json -> string.
Variable loads : string -> option json.

Lemma today_logs_line_pure logs line w :
  today_logs_line loads logs line w = (read_line loads logs line, w).
Proof.
  unfold today_logs_line, read_line, json_loads, lift.
  destruct (strip_truthy line); [|reflexivity].
  unfold mbind, M_bind, bind. destruct (loads line); reflexivity.
Qed.

Lemma stats_line_pure acc line w :
  stats_line loads acc line w = (count_line loads acc line, w).
Proof.
  unfold stats_line, count_line, json_loads, lift.
  destruct (strip_truthy line); [|reflexivity].
  unfold mbind, M_bind, bind. destruct (loads line); reflexivity.
Qed.

(** [get_today_logs] reads the clock once and nothing else changes. *)
Lemma get_today_logs_run w :
  get_today_logs loads w =
  (match files w !! today_path w with
   | None => Ok no_logs_today
   | Some content =>
       match fold_result (read_line loads) (readlines content) [] with
       | Ok logs => Ok (logs_reply logs (today_path w))
       | Raise _ => Raise read_failed
       end
   end, tick w).
Proof.
  unfold get_today_logs, try_except, get_log_filename, path_exists, open_lines.
  unfold mbind, M_bind, bind, mret, M_ret, ret, now. cbn [files].
  fold (tick w). fold (day_file (clock w (ticks w))). fold (today_path w).
  destruct (files w !! today_path w) as [content|] eqn:Hf.
  - rewrite bool_decide_eq_true_2 by eauto. cbn [negb].
    replace (files (tick w)) with (files w) by reflexivity. rewrite Hf.
    rewrite (for_each_pure _ (read_line loads) today_logs_line_pure).
    destruct (fold_result (read_line loads) (readlines content) []); reflexivity.
  - rewrite bool_decide_eq_false_2 by (intros [? ?]; discriminate). reflexivity.
Qed.

(** [get_stats] reads the clock once and nothing else changes. *)
Lemma get_stats_run w :
  get_stats loads w =
  (match files w !! today_path w with
   | None => Ok no_stats_today
   | Some content =>
       match fold_result (count_line loads) (readlines content) stats_init with
       | Ok acc => Ok (stats_reply acc (today_path w))
       | Raise _ => Raise stats_failed
       end
   end, tick w).
Proof.
  unfold get_stats, try_except, get_log_filename, path_exists, open_lines.
  unfold mbind, M_bind, bind, mret, M_ret, ret, now. cbn [files].
  fold (tick w). fold (day_file (clock w (ticks w))). fold (today_path w).
  destruct (files w !! today_path w) as [content|] eqn:Hf.
  - rewrite bool_decide_eq_true_2 by eauto. cbn [negb].
    replace (files (tick w)) with (files w) by reflexivity. rewrite Hf.
    rewrite (for_each_pure _ (count_line loads) stats_line_pure).
    destruct (fold_result (count_line loads) (readlines content) stats_init); reflexivity.
  - rewrite bool_decide_eq_false_2 by (intros [? ?]; discriminate). reflexivity.
Qed.

End Runs.

Section LogSummaryRun.

Variable dumps : json -> string.

Lemma log_summary_run w request :
  log_summary dumps request w =
  if disk_fault w then (Raise log_failed, after_log_summary w request)
  else
    (Ok (SummaryLogResponse.mk "success" "Summary logged successfully"
           (uuids w (draws w))
           (effective_timestamp w (SummaryLogRequest.timestamp request))),
     set_files
       (<[target_path w request :=
            default "" (files w !! target_path w request)
            +:+ dumps (JDict (record_of w request)) +:+ NL]> (files w))
       (after_log_summary w request)).
Proof.
  destruct w as [fs clk t us d fault], request as [sid summ md ts].
  unfold log_summary, log_to_file, try_except, get_log_filename, append_text,
    resolve_timestamp, uuid4_str, now, raise.
  unfold mbind, M_bind, bind, mret, M_ret, ret.
  destruct ts as [[|c s]|]; destruct fault; reflexivity.
Qed.

End LogSummaryRun.

(** ** Lines and the records parsed from them *)

Section Parsing.

Variable loads : string -> option json.

Lemma fold_per_line_parsed {S} (g : S -> json -> result S) (lines : list string) :
  forall acc entries,
  mapM loads (List.filter strip_truthy lines) = Some entries ->
  fold_result (per_line loads g) lines acc = fold_result g entries acc.
Proof.
  induction lines as [|line lines IH]; intros acc entries Hm.
  - cbn in Hm. injection Hm as <-. reflexivity.
  - cbn [List.filter] in Hm. cbn [fold_result]. unfold per_line at 1.
    destruct (strip_truthy line).
    + cbn in Hm. destruct (loads line) as [v|]; [|discriminate]. cbn in Hm.
      destruct (mapM loads (List.filter strip_truthy lines)) as [vs|] eqn:Hvs;
        [|discriminate].
      cbn in Hm. injection Hm as <-. cbn [fold_result].
      destruct (g acc v); [now apply IH | reflexivity].
    + now apply IH.
Qed.

(** [mapM] fails exactly when one element does. *)
Lemma mapM_loads_None (lines : list string) :
  mapM loads lines = None <-> exists line, In line lines /\ loads line = None.
Proof.
  induction lines as [|line lines IH]; cbn.
  - split; [discriminate | intros (? & [] & _)].
  - destruct (loads line) as [v|] eqn:Hv; cbn.
    + destruct (mapM loads lines) as [vs|]; cbn.
      * split; [discriminate|]. intros (l & [<-|Hin] & Hl); [congruence|].
        destruct IH as [_ IH]. discriminate IH. eauto.
      * split; [|reflexivity]. intros _.
        destruct IH as [IH _]. destruct (IH eq_refl) as (l & Hin & Hl). eauto.
    + split; [|reflexivity]. eauto.
Qed.

End Parsing.

(** The line that the reference printer writes for a request. *)
Example line_of_a :
  Examples.line_of "a" =
  "{" +:+ RefJson.quote "log_id" +:+ ": " +:+ RefJson.quote "3f2b8c1e-5d4a-4c6b-9e7f-000000000000"
  +:+ ", " +:+ RefJson.quote "session_id" +:+ ": " +:+ RefJson.quote "a"
  +:+ ", " +:+ RefJson.quote "client_timestamp" +:+ ": null"
  +:+ ", " +:+ RefJson.quote "summary" +:+ ": " +:+ RefJson.quote "Two passengers, driver attentive"
  +:+ ", " +:+ RefJson.quote "metadata" +:+ ": {"
  +:+ RefJson.quote "framesProcessed" +:+ ": 120, "
  +:+ RefJson.quote "peopleDetected" +:+ ": 3, "
  +:+ RefJson.quote "processingTimeSeconds" +:+ ": 1.5, "
  +:+ RefJson.quote "videoSource" +:+ ": " +:+ RefJson.quote "front_camera" +:+ ", "
  +:+ RefJson.quote "inferenceTimeMs" +:+ ": 12.25, "
  +:+ RefJson.quote "totalDetections" +:+ ": 7}"
  +:+ ", " +:+ RefJson.quote "timestamp" +:+ ": " +:+ RefJson.quote "2024-03-07T12:00:00"
  +:+ ", " +:+ RefJson.quote "server_timestamp" +:+ ": " +:+ RefJson.quote "2024-03-07T12:00:02"
  +:+ "}" +:+ NL.
Proof. vm_compute. reflexivity. Qed.

(** ** Reading today's records *)

Section ReadingToday.

Variable loads : string -> option json.

Lemma read_lines_parsed (lines : list string) (acc : list json) :
  fold_result (read_line loads) lines acc =
  match mapM loads (List.filter strip_truthy lines) with
  | Some logs => Ok (acc ++ logs)
  | None => Raise JSONDecodeError
  end.
Proof.
  revert acc. induction lines as [|line lines IH]; intros acc.
  - cbn. now rewrite app_nil_r.
  - cbn [fold_result List.filter]. unfold read_line at 1.
    destruct (strip_truthy line); [|apply IH].
    cbn. destruct (loads line) as [v|]; [|reflexivity]. cbn.
    rewrite IH. destruct (mapM loads (List.filter strip_truthy lines)); cbn;
      [now rewrite <- app_assoc | reflexivity].
Qed.

(** C7. When the day's file exists, [get_today_logs] reads it line by
    line, skips the blank lines and parses every other line as one record:
    it answers with exactly the records of the non-blank lines, in order,
    with their count and the file's path.  If some non-blank line is not
    valid JSON the whole call fails with status 500 and detail "Failed to
    read logs", and no record is returned. *)
Theorem today_logs_all_or_nothing (w : World) (content : string) :
  files w !! today_path w = Some content ->
  fst (get_today_logs loads w) =
    match mapM loads (nonblank_lines content) with
    | Some logs =>
        Ok (JDict [("logs", JList logs);
                   ("count", JInt (Z.of_nat (length logs)));
                   ("log_file", JStr (today_path w))])
    | None => Raise (HTTPException 500 (Text "Failed to read logs"))
    end
  /\ ((exists line, In line (readlines content) /\ strip_truthy line = true
                    /\ loads line = None)
      -> fst (get_today_logs loads w) = Raise (HTTPException 500 (Text "Failed to read logs"))
         /\ is_server_error (status_of (fst (get_today_logs loads w))) = true).
Proof.
  intros Hf. rewrite get_today_logs_run, Hf. cbn [fst].
  rewrite read_lines_parsed. unfold nonblank_lines. split.
  - destruct (mapM loads (List.filter strip_truthy (readlines content))); reflexivity.
  - intros (line & Hin & Hnb & Hbad).
    assert (mapM loads (List.filter strip_truthy (readlines content)) = None) as ->.
    { apply mapM_loads_None. exists line. split; [|assumption].
      apply filter_In. now split. }
    split; reflexivity.
Qed.

(** C8. Two calls of [get_today_logs] in a row, with the clock on the same
    date at both, give the same answer: the first call leaves the files as
    they were, and the second returns the identical reply (the same
    records in the same order, or the same failure). *)
Theorem today_logs_twice (w : World) :
  strftime_ymd (clock w (ticks w)) = strftime_ymd (clock w (S (ticks w))) ->
  let first := get_today_logs loads w in
  let second := get_today_logs loads (snd first) in
  files (snd first) = files w /\ fst second = fst first.
Proof.
  intros Hday first second. subst first second.
  rewrite !get_today_logs_run. cbn [fst snd]. split; [reflexivity|].
  replace (today_path (tick w)) with (today_path w)
    by (unfold today_path, day_file; cbn; now rewrite Hday).
  reflexivity.
Qed.

End ReadingToday.

Module ReadingWitnesses.
Import Examples.

(** C7 on a file of two records around blank lines, and on a damaged file. *)
Lemma today_logs_all_or_nothing_witness :
  fst (get_today_logs RefJson.loads (with_file two_records world0)) =
    Ok (JDict [("logs", JList [JDict (record_of world0 (request "a" None));
                               JDict (record_of world0 (request "b" None))]);
               ("count", JInt 2);
               ("log_file", JStr "logs/monitoring_logs_2024-03-07.jsonl")])
  /\ fst (get_today_logs RefJson.loads (with_file damaged world0)) =
       Raise (HTTPException 500 (Text "Failed to read logs")).
Proof.
  split.
  - destruct (today_logs_all_or_nothing RefJson.loads (with_file two_records world0)
                two_records ltac:(vm_compute; reflexivity)) as [H _].
    rewrite H. vm_compute. reflexivity.
  - destruct (today_logs_all_or_nothing RefJson.loads (with_file damaged world0)
                damaged ltac:(vm_compute; reflexivity)) as [_ H].
    apply H. exists ("{not json" +:+ NL). vm_compute. auto.
Defined.

(** C8 on a file of two records, under a clock that stays on one day. *)
Lemma today_logs_twice_witness :
  files (snd (get_today_logs RefJson.loads (with_file two_records world0)))
    = files (with_file two_records world0)
  /\ fst (get_today_logs RefJson.loads
            (snd (get_today_logs RefJson.loads (with_file two_records world0))))
     = fst (get_today_logs RefJson.loads (with_file two_records world0)).
Proof.
  apply (today_logs_twice RefJson.loads (with_file two_records world0)).
  vm_compute. reflexivity.
Defined.

End ReadingWitnesses.

(** ** Statistics *)

Section StatsOfNoRecords.

Variable loads : string -> option json.

(** C2 (amended). When the day's file does not exist, [get_stats] answers
    without error, with the message "No logs for today" and an empty
    [stats] object: it reports neither [unique_sessions] nor [total_logs].
    When the file exists and is empty, [get_stats] answers without error
    with [total_logs = 0], [unique_sessions = 0] and both sums 0. *)
Theorem stats_without_records (w : World) :
  (files w !! today_path w = None ->
     fst (get_stats loads w) =
       Ok (JDict [("message", JStr "No logs for today"); ("stats", JDict [])]))
  /\ (files w !! today_path w = Some "" ->
        fst (get_stats loads w) =
          Ok (JDict [("stats", JDict [("total_logs", JInt 0);
                                      ("unique_sessions", JInt 0);
                                      ("total_frames_processed", JInt 0);
                                      ("total_people_detected", JInt 0)]);
                     ("log_file", JStr (today_path w))])
        /\ reports (fst (get_stats loads w)) "unique_sessions" (JInt 0)
        /\ reports (fst (get_stats loads w)) "total_logs" (JInt 0)).
Proof.
  split; intros Hf; rewrite get_stats_run, Hf; cbn [fst]; [reflexivity|].
  cbn. split; [reflexivity|].
  split; eexists _, _; repeat split; reflexivity.
Qed.

End StatsOfNoRecords.

Module StatsOfNoRecordsWitnesses.
Import Examples.

(** C2 (amended) with no file, and with an empty file. *)
Lemma stats_without_records_witness :
  fst (get_stats RefJson.loads world0) =
    Ok (JDict [("message", JStr "No logs for today"); ("stats", JDict [])])
  /\ reports (fst (get_stats RefJson.loads (with_file "" world0))) "total_logs" (JInt 0).
Proof.
  split.
  - apply (stats_without_records RefJson.loads world0). vm_compute. reflexivity.
  - apply (stats_without_records RefJson.loads (with_file "" world0)).
    vm_compute. reflexivity.
Defined.

(** C2 as stated fails where the file does not exist: the reply carries an
    empty [stats] object, so no [unique_sessions = 0] is returned. *)
Lemma stats_absent_file_reports_nothing :
  files world0 !! today_path world0 = None
  /\ ~ reports (fst (get_stats RefJson.loads world0)) "unique_sessions" (JInt 0).
Proof.
  split; [vm_compute; reflexivity|].
  intros (reply & stats & Hr & Hs & Hu).
  vm_compute in Hr. injection Hr as <-.
  vm_compute in Hs. injection Hs as <-.
  discriminate Hu.
Qed.

End StatsOfNoRecordsWitnesses.

(** ** Logging a summary *)

Section Logging.

Variable dumps : json -> string.
Variable loads : string -> option json.

Lemma log_summary_ok (w w' : World) (request : SummaryLogRequest.t)
    (resp : SummaryLogResponse.t) :
  log_summary dumps request w = (Ok resp, w') ->
  resp = SummaryLogResponse.mk "success" "Summary logged successfully"
           (uuids w (draws w))
           (effective_timestamp w (SummaryLogRequest.timestamp request))
  /\ files w' !! target_path w request =
       Some (default "" (files w !! target_path w request)
             +:+ dumps (JDict (record_of w request)) +:+ NL)
  /\ (forall p, p <> target_path w request -> files w' !! p = files w !! p).
Proof.
  rewrite log_summary_run. destruct (disk_fault w); [discriminate|].
  intros H. injection H as <- <-. split; [reflexivity|]. split.
  - cbn. apply lookup_insert_eq.
  - intros p Hp. cbn. now apply lookup_insert_ne.
Qed.

(** C3 (amended). When [log_summary] succeeds, the [timestamp] of the reply
    and the [timestamp] field of the record appended to the day's file are
    the same string: the client's timestamp when the request carries a
    non-empty one, and otherwise (no timestamp, or the empty string) the
    ISO-8601 text of the server's clock at that moment. *)
Theorem log_summary_timestamp (w w' : World) (request : SummaryLogRequest.t)
    (resp : SummaryLogResponse.t) :
  log_summary dumps request w = (Ok resp, w') ->
  let ts := SummaryLogRequest.timestamp request in
  let path := target_path w request in
  let record := record_of w request in
  files w' !! path = Some (default "" (files w !! path) +:+ dumps (JDict record) +:+ NL)
  /\ py_getitem (JDict record) "timestamp" = Ok (JStr (SummaryLogResponse.timestamp resp))
  /\ (forall c s, ts = Some (String c s) -> SummaryLogResponse.timestamp resp = String c s)
  /\ (ts = None \/ ts = Some "" ->
      SummaryLogResponse.timestamp resp = isoformat (clock w (ticks w))).
Proof.
  intros H ts path record. apply log_summary_ok in H as (-> & Hfile & _).
  split; [exact Hfile|]. split; [reflexivity|]. cbn. split.
  - intros c s Hts. fold ts. now rewrite Hts.
  - intros [Hts|Hts]; fold ts; now rewrite Hts.
Qed.

(** C9. A request whose timestamp is the empty string is logged with the
    server's clock as its effective [timestamp], in the reply and in the
    record, while the record's [client_timestamp] is the empty string
    itself.  (With a faulty disk nothing is written and the call fails.) *)
Theorem empty_timestamp_resolution (w : World) (sid summ : string)
    (md : MonitoringMetadata.t) :
  let request := SummaryLogRequest.mk sid summ md (Some "") in
  let now0 := isoformat (clock w (ticks w)) in
  let path := day_file (clock w (S (ticks w))) in
  let record :=
    [ ("log_id", JStr (uuids w (draws w)));
      ("session_id", JStr sid);
      ("client_timestamp", JStr "");
      ("summary", JStr summ);
      ("metadata", JDict (MonitoringMetadata.dict md));
      ("timestamp", JStr now0);
      ("server_timestamp", JStr (isoformat (clock w (S (S (ticks w)))))) ] in
  fst (resolve_timestamp (Some "") w) = Ok now0
  /\ fst (log_summary dumps request w) =
       (if disk_fault w then Raise log_failed
        else Ok (SummaryLogResponse.mk "success" "Summary logged successfully"
                   (uuids w (draws w)) now0))
  /\ files (snd (log_summary dumps request w)) =
       (if disk_fault w then files w
        else <[path := default "" (files w !! path) +:+ dumps (JDict record) +:+ NL]> (files w)).
Proof.
  intros request now0 path record. split; [reflexivity|].
  rewrite log_summary_run. destruct (disk_fault w); split; reflexivity.
Qed.

End Logging.

Module LoggingWitnesses.
Import Examples.

(** C3 (amended) on a request that carries a timestamp. *)
Lemma log_summary_timestamp_witness :
  files logged_at !! "logs/monitoring_logs_2024-03-07.jsonl" =
    Some (RefJson.dumps (JDict (record_of world0 (request "a" (Some sent_at)))) +:+ NL)
  /\ py_getitem (JDict (record_of world0 (request "a" (Some sent_at)))) "timestamp"
     = Ok (JStr sent_at)
  /\ SummaryLogResponse.timestamp reply_at = sent_at.
Proof.
  destruct (log_summary_timestamp RefJson.dumps world0 logged_at
              (request "a" (Some sent_at)) reply_at)
    as (Hfile & Hrecord & Hclient & _).
  - vm_compute. reflexivity.
  - split; [exact Hfile|]. split; [exact Hrecord|].
    apply (Hclient "2"%char "024-03-07T11:59:58"). reflexivity.
Defined.

(** C3 as stated fails for a request that carries the empty string as its
    timestamp: the reply's timestamp is the server's time, not that string. *)
Lemma empty_client_timestamp_not_returned :
  ~ (forall resp w' t,
       log_summary RefJson.dumps (request "a" (Some "")) world0 = (Ok resp, w') ->
       SummaryLogRequest.timestamp (request "a" (Some "")) = Some t ->
       SummaryLogResponse.timestamp resp = t).
Proof.
  intros H.
  specialize (H (SummaryLogResponse.mk "success" "Summary logged successfully"
                   "3f2b8c1e-5d4a-4c6b-9e7f-000000000000" "2024-03-07T12:00:00")
                (snd (log_summary RefJson.dumps (request "a" (Some "")) world0)) "").
  cbn [SummaryLogResponse.timestamp] in H.
  discriminate H; [vm_compute|]; reflexivity.
Qed.

End LoggingWitnesses.

(** ** Round trip: a logged record is read back *)

Section RoundTrip.

Variable dumps : json -> string.
Variable loads : string -> option json.

Lemma readable_parsed (content : string) :
  readable loads content -> exists logs, mapM loads (nonblank_lines content) = Some logs.
Proof.
  intros Hr. destruct (mapM loads (nonblank_lines content)) as [logs|] eqn:Hm; [eauto|].
  apply mapM_loads_None in Hm as (line & Hin & Hbad). now destruct (Hr line Hin).
Qed.

(** Reading a text that ends with one more line, written by [dumps]. *)
Lemma read_after_append (before : string) (v : json) (earlier : list json) :
  terminated before ->
  mapM loads (nonblank_lines before) = Some earlier ->
  codec_ok dumps loads v ->
  fold_result (read_line loads) (readlines (before +:+ dumps v +:+ NL)) []
  = Ok (earlier ++ [v]).
Proof.
  intros Hterm Hearlier (Hload & Hline & Hnb).
  rewrite readlines_append, fold_result_app, read_lines_parsed by assumption.
  unfold nonblank_lines in Hearlier. rewrite Hearlier. cbn [app fold_result].
  unfold read_line. now rewrite strip_truthy_NL, Hnb, Hload.
Qed.

(** The frame of the round trip is kept by the handler itself: after a
    successful [log_summary] the day's file is again made of complete,
    readable lines. *)
Lemma log_summary_keeps_readable (w w1 : World) (request : SummaryLogRequest.t)
    (resp : SummaryLogResponse.t) (after : string) :
  log_summary dumps request w = (Ok resp, w1) ->
  terminated (default "" (files w !! target_path w request)) ->
  readable loads (default "" (files w !! target_path w request)) ->
  codec_ok dumps loads (JDict (record_of w request)) ->
  files w1 !! target_path w request = Some after ->
  terminated after /\ readable loads after.
Proof.
  intros Hlog Hterm Hread (Hload & Hline & Hnb) Hafter.
  apply log_summary_ok in Hlog as (_ & Hfile & _).
  rewrite Hfile in Hafter. injection Hafter as <-. split.
  - right. eexists. now rewrite <- append_assoc.
  - intros line Hin. unfold nonblank_lines in Hin.
    rewrite readlines_append, List.filter_app in Hin by assumption.
    apply in_app_iff in Hin as [Hin|Hin]; [now apply Hread|].
    cbn [List.filter] in Hin. rewrite strip_truthy_NL, Hnb in Hin.
    destruct Hin as [<-|[]]. now rewrite Hload.
Qed.

(** C4 (amended). Let [log_summary] succeed on a request, on a day's file
    that was absent or held only complete lines of valid JSON, and let
    [json.loads] read back the line that [json.dumps] wrote.  Then a later
    [get_today_logs] that finds the same files and whose clock shows the
    same date succeeds, and the last record it returns has the submitted
    [session_id], [summary] and [metadata], the [log_id] and the resolved
    [timestamp] of the reply, a [server_timestamp], and the client's
    timestamp as [client_timestamp]. *)
Theorem logged_record_read_back (w w1 w2 : World) (request : SummaryLogRequest.t)
    (resp : SummaryLogResponse.t) :
  log_summary dumps request w = (Ok resp, w1) ->
  let path := target_path w request in
  let before := default "" (files w !! path) in
  terminated before ->
  readable loads before ->
  codec_ok dumps loads (JDict (record_of w request)) ->
  files w2 = files w1 ->
  today_path w2 = path ->
  exists (earlier : list json) (record : pydict) (server_timestamp : string),
    fst (get_today_logs loads w2) =
      Ok (JDict [("logs", JList (earlier ++ [JDict record]));
                 ("count", JInt (Z.of_nat (length (earlier ++ [JDict record]))));
                 ("log_file", JStr path)])
    /\ dict_lookup "session_id" record = Some (JStr (SummaryLogRequest.session_id request))
    /\ dict_lookup "summary" record = Some (JStr (SummaryLogRequest.summary request))
    /\ dict_lookup "metadata" record =
         Some (JDict (MonitoringMetadata.dict (SummaryLogRequest.metadata request)))
    /\ dict_lookup "log_id" record = Some (JStr (SummaryLogResponse.log_id resp))
    /\ dict_lookup "timestamp" record = Some (JStr (SummaryLogResponse.timestamp resp))
    /\ dict_lookup "server_timestamp" record = Some (JStr server_timestamp)
    /\ dict_lookup "client_timestamp" record =
         Some (json_of_optional_str (SummaryLogRequest.timestamp request)).
Proof.
  intros Hlog path before Hterm Hread Hcodec Hfiles Hday.
  apply log_summary_ok in Hlog as (-> & Hfile & _). fold path before in Hfile.
  destruct (readable_parsed before Hread) as [earlier Hearlier].
  exists earlier, (record_of w request),
    (isoformat (clock w (S (ticks (after_resolve w (SummaryLogRequest.timestamp request)))))).
  split.
  - rewrite get_today_logs_run, Hday, Hfiles, Hfile. cbn [fst].
    now rewrite (read_after_append before _ earlier).
  - destruct request as [sid summ md ts]. repeat split; reflexivity.
Qed.

End RoundTrip.

Module RoundTripWitnesses.
Import Examples.

(** C4 (amended) on the first request of a day. *)
Lemma logged_record_read_back_witness :
  exists (earlier : list json) (record : pydict),
    fst (get_today_logs RefJson.loads logged) =
      Ok (JDict [("logs", JList (earlier ++ [JDict record]));
                 ("count", JInt (Z.of_nat (length (earlier ++ [JDict record]))));
                 ("log_file", JStr "logs/monitoring_logs_2024-03-07.jsonl")])
    /\ dict_lookup "session_id" record = Some (JStr "a")
    /\ dict_lookup "log_id" record = Some (JStr "3f2b8c1e-5d4a-4c6b-9e7f-000000000000")
    /\ dict_lookup "timestamp" record = Some (JStr "2024-03-07T12:00:00").
Proof.
  destruct (logged_record_read_back RefJson.dumps RefJson.loads world0 logged logged
              (request "a" None) reply_a)
    as (earlier & record & sts & Hreply & Hsid & _ & _ & Hid & Hts & _).
  - vm_compute. reflexivity.
  - left. vm_compute. reflexivity.
  - intros line Hin. vm_compute in Hin. destruct Hin.
  - repeat split; vm_compute; reflexivity.
  - reflexivity.
  - vm_compute. reflexivity.
  - exists earlier, record. repeat split; assumption.
Defined.

(** C4 as stated fails: the append succeeds, and the next [get_today_logs]
    returns no record when the date has changed in between, and fails when
    the day's file already held a line that is not JSON. *)
Lemma logged_record_not_read_back :
  (exists resp,
     fst (log_summary RefJson.dumps (request "a" None) world_midnight) = Ok resp
     /\ fst (get_today_logs RefJson.loads
               (snd (log_summary RefJson.dumps (request "a" None) world_midnight)))
        = Ok (JDict [("logs", JList []); ("message", JStr "No logs for today")]))
  /\ (exists resp,
        fst (log_summary RefJson.dumps (request "a" None) world_damaged) = Ok resp
        /\ fst (get_today_logs RefJson.loads
                  (snd (log_summary RefJson.dumps (request "a" None) world_damaged)))
           = Raise (HTTPException 500 (Text "Failed to read logs"))).
Proof.
  split.
  - exists (SummaryLogResponse.mk "success" "Summary logged successfully"
              "3f2b8c1e-5d4a-4c6b-9e7f-000000000000" "2024-03-07T23:59:59.000999").
    split; vm_compute; reflexivity.
  - exists reply_a. split; vm_compute; reflexivity.
Qed.

End RoundTripWitnesses.

(** ** Aggregating the records *)

(** The stored metadata has no snake_case key. *)
Lemma metadata_has_no_snake_case (md : MonitoringMetadata.t) :
  dict_lookup "frames_processed" (MonitoringMetadata.dict md) = None
  /\ dict_lookup "people_detected" (MonitoringMetadata.dict md) = None.
Proof. split; reflexivity. Qed.

(** Adding the default [0] never fails and leaves an integer total alone. *)
Lemma num_add_zero (a : pynum) :
  exists a', num_add a (JInt 0) = Ok a' /\ (forall n, a = PInt n -> a' = PInt n).
Proof.
  destruct a as [n|f].
  - exists (PInt n). split; [cbn; now rewrite Z.add_0_r | auto].
  - exists (PFloat (f + SF2Prim (binary_normalize prec emax 0 0 false))%float).
    split; [reflexivity | discriminate].
Qed.

(** One turn of the loop on a record that [log_summary] wrote. *)
Lemma stats_entry_logged (acc : stats_acc) (w : World) (q : SummaryLogRequest.t) (n m : Z) :
  total_frames acc = PInt n -> total_people acc = PInt m ->
  stats_entry acc (JDict (record_of w q)) =
    Ok (mk_acc (total_logs acc + 1) (PInt n) (PInt m)
          (add_session (JStr (SummaryLogRequest.session_id q)) (sessions acc))).
Proof.
  destruct acc as [tl tf tp ss], q as [sid summ md ts]. cbn [total_frames total_people].
  intros -> ->. unfold stats_entry, record_of, persisted_record, log_data_of.
  cbn -[Z.add existsb key_eq]. now rewrite !Z.add_0_r.
Qed.

(** What one successful turn of the loop does to the count and the set. *)
Lemma stats_entry_inv (acc acc' : stats_acc) (e : json) :
  stats_entry acc e = Ok acc' ->
  total_logs acc' = total_logs acc + 1
  /\ exists sid, py_getitem e "session_id" = Ok sid
                 /\ sessions acc' = add_session sid (sessions acc).
Proof.
  unfold stats_entry. destruct (py_getitem e "session_id") as [sid|]; [|discriminate].
  unfold set_add. destruct (hashable sid); [|discriminate].
  destruct (py_get e "metadata" (JDict [])) as [md|]; [|discriminate].
  destruct (py_get md "frames_processed" (JInt 0)) as [fr|]; [|discriminate].
  destruct (num_add (total_frames acc) fr); [|discriminate].
  destruct (py_get md "people_detected" (JInt 0)) as [pe|]; [|discriminate].
  destruct (num_add (total_people acc) pe); [|discriminate].
  intros H. injection H as <-. cbn. split; [reflexivity|]. now exists sid.
Qed.

Lemma existsb_key_eq_str (s : string) (ss : list string) :
  existsb (key_eq (JStr s)) (map JStr ss) = true <-> s ∈ ss.
Proof.
  induction ss as [|x ss IH]; cbn.
  - split; [discriminate | intros H; inversion H].
  - rewrite orb_true_iff, IH, String.eqb_eq, elem_of_cons. reflexivity.
Qed.

(** Adding a string to a duplicate-free set of strings. *)
Lemma add_session_str (s : string) (ss : list string) :
  NoDup ss ->
  exists ss', add_session (JStr s) (map JStr ss) = map JStr ss'
              /\ NoDup ss'
              /\ list_to_set ss' =@{gset string} list_to_set ss ∪ {[ s ]}.
Proof.
  intros Hnd. unfold add_session.
  destruct (existsb (key_eq (JStr s)) (map JStr ss)) eqn:Hex.
  - apply existsb_key_eq_str in Hex. exists ss. repeat split; [assumption|].
    apply set_eq. intros x. rewrite elem_of_union, elem_of_singleton, !elem_of_list_to_set.
    split; [auto | intros [?| ->]; assumption].
  - exists (ss ++ [s]). split; [now rewrite map_app|]. split.
    + apply NoDup_app. repeat split; [assumption | | apply NoDup_singleton].
      intros x Hx Hs. apply list_elem_of_singleton in Hs as ->.
      apply existsb_key_eq_str in Hx. congruence.
    + apply list_to_set_snoc_L.
Qed.

(** The loop over parsed records: the count grows by one per record, and
    the set collects the session identifiers. *)
Lemma fold_stats_counts (entries : list json) : forall (acc acc' : stats_acc) (ss sids : list string),
  fold_result stats_entry entries acc = Ok acc' ->
  sessions acc = map JStr ss -> NoDup ss ->
  Forall2 (fun e s => py_getitem e "session_id" = Ok (JStr s)) entries sids ->
  total_logs acc' = total_logs acc + Z.of_nat (length entries)
  /\ exists ss', sessions acc' = map JStr ss' /\ NoDup ss'
                 /\ list_to_set ss' =@{gset string} list_to_set ss ∪ list_to_set sids.
Proof.
  induction entries as [|e entries IH]; intros acc acc' ss sids Hfold Hss Hnd Hsids.
  - cbn in Hfold. injection Hfold as <-. inversion Hsids; subst.
    split; [cbn; lia|]. exists ss. repeat split; [assumption.. |].
    rewrite list_to_set_nil. now rewrite (right_id_L ∅ (∪)).
  - cbn [fold_result] in Hfold.
    destruct (stats_entry acc e) as [acc1|] eqn:He; [|discriminate].
    apply stats_entry_inv in He as (Hlogs & sid & Hsid & Hset).
    inversion Hsids as [|e0 s0 es0 sids0 Hs0 Hrest]; subst.
    rewrite Hsid in Hs0. injection Hs0 as ->.
    rewrite Hss in Hset.
    destruct (add_session_str s0 ss Hnd) as (ss1 & Heq1 & Hnd1 & Hset1).
    rewrite Heq1 in Hset.
    destruct (IH acc1 acc' ss1 sids0 Hfold Hset Hnd1 Hrest) as (Hcount & ss' & Hs' & Hnd' & Hset').
    split; [rewrite Hcount, Hlogs; cbn [length]; lia|].
    exists ss'. repeat split; [assumption.. |].
    rewrite Hset', Hset1, list_to_set_cons. now rewrite (assoc_L (∪)).
Qed.

Section StatsOfLoggedRecords.

Variable dumps : json -> string.
Variable loads : string -> option json.

Lemma readlines_file_of (records : list pydict) :
  Forall (fun r => codec_ok dumps loads (JDict r)) records ->
  readlines (file_of dumps records) = map (fun r => dumps (JDict r) +:+ NL) records.
Proof.
  unfold readlines. induction 1 as [|r rest (_ & Hline & _) _ IH]; [reflexivity|].
  cbn [file_of map]. rewrite lines_from_line by assumption. now rewrite IH.
Qed.

Lemma parsed_file_of (records : list pydict) :
  Forall (fun r => codec_ok dumps loads (JDict r)) records ->
  mapM loads (nonblank_lines (file_of dumps records)) = Some (map JDict records).
Proof.
  intros Hok. unfold nonblank_lines. rewrite readlines_file_of by assumption.
  induction Hok as [|r rest (Hload & _ & Hnb) _ IH]; [reflexivity|].
  cbn [map List.filter]. rewrite strip_truthy_NL, Hnb. cbn. rewrite Hload. cbn.
  now rewrite IH.
Qed.

Lemma file_of_snoc (records : list pydict) (r : pydict) :
  file_of dumps (records ++ [r]) = file_of dumps records +:+ dumps (JDict r) +:+ NL.
Proof.
  induction records as [|r0 records IH]; cbn [app file_of].
  - now rewrite append_nil_l, append_nil_r.
  - now rewrite IH, !append_assoc.
Qed.

(** A file of logged records stays one: a successful [log_summary] adds the
    record of its request at the end (a file not yet there counts as
    empty). *)
Lemma log_summary_extends_file (w w1 : World) (request : SummaryLogRequest.t)
    (resp : SummaryLogResponse.t) (records : list pydict) :
  log_summary dumps request w = (Ok resp, w1) ->
  default "" (files w !! target_path w request) = file_of dumps records ->
  files w1 !! target_path w request
  = Some (file_of dumps (records ++ [record_of w request])).
Proof.
  intros Hlog Hbefore. apply log_summary_ok in Hlog as (_ & Hfile & _).
  now rewrite Hfile, Hbefore, file_of_snoc.
Qed.

(** The loop of [get_stats] over a file of parsed records. *)
Lemma count_lines_parsed (content : string) (entries : list json) :
  mapM loads (nonblank_lines content) = Some entries ->
  fold_result (count_line loads) (readlines content) stats_init
  = fold_result stats_entry entries stats_init.
Proof.
  intros Hm. change (count_line loads) with (per_line loads stats_entry).
  now apply fold_per_line_parsed.
Qed.

(** The loop over records that [log_summary] wrote. *)
Lemma fold_logged (logged : list (World * SummaryLogRequest.t)) : forall acc,
  total_frames acc = PInt 0 -> total_people acc = PInt 0 ->
  exists acc',
    fold_result stats_entry (map (fun wq => JDict (record_of wq.1 wq.2)) logged) acc = Ok acc'
    /\ total_frames acc' = PInt 0 /\ total_people acc' = PInt 0.
Proof.
  induction logged as [|[w q] logged IH]; intros acc Hf Hp.
  - exists acc. now repeat split.
  - cbn [map fst snd fold_result]. rewrite (stats_entry_logged acc w q 0 0) by assumption.
    apply IH; reflexivity.
Qed.

(** C1. Let the day's file hold any sequence of records written by
    [log_summary], each read back by [json.loads] as written.  Then
    [get_stats] succeeds and reports [total_frames_processed = 0] and
    [total_people_detected = 0]: the metadata of a record is stored under
    [framesProcessed] and [peopleDetected] and has no key
    [frames_processed] or [people_detected], so each lookup yields the
    default 0. *)
Theorem stats_sums_are_zero (w : World) (logged : list (World * SummaryLogRequest.t)) :
  let records := map (fun wq => record_of wq.1 wq.2) logged in
  Forall (fun r => codec_ok dumps loads (JDict r)) records ->
  files w !! today_path w = Some (file_of dumps records) ->
  reports (fst (get_stats loads w)) "total_frames_processed" (JInt 0)
  /\ reports (fst (get_stats loads w)) "total_people_detected" (JInt 0)
  /\ Forall (fun wq =>
       let md := MonitoringMetadata.dict (SummaryLogRequest.metadata wq.2) in
       dict_lookup "framesProcessed" md
         = Some (JInt (MonitoringMetadata.framesProcessed (SummaryLogRequest.metadata wq.2)))
       /\ dict_lookup "peopleDetected" md
         = Some (JInt (MonitoringMetadata.peopleDetected (SummaryLogRequest.metadata wq.2)))
       /\ dict_lookup "frames_processed" md = None
       /\ dict_lookup "people_detected" md = None) logged.
Proof.
  intros records Hok Hfile.
  rewrite get_stats_run, Hfile. cbn [fst].
  rewrite (count_lines_parsed _ (map JDict records)) by now apply parsed_file_of.
  subst records. rewrite map_map.
  destruct (fold_logged logged stats_init eq_refl eq_refl) as (acc & -> & Hf & Hp).
  repeat split.
  - eexists _, _. split; [reflexivity|]. split; [reflexivity|]. cbn. now rewrite Hf.
  - eexists _, _. split; [reflexivity|]. split; [reflexivity|]. cbn. now rewrite Hp.
  - apply Forall_forall. intros wq _. repeat split; reflexivity.
Qed.

End StatsOfLoggedRecords.

Section StatsCounts.

Variable dumps : json -> string.
Variable loads : string -> option json.

(** A failing turn fails the loop, whatever came before it. *)
Lemma fold_result_raises {A S} (f : S -> A -> result S) (xs : list A) (x : A) :
  In x xs -> (forall acc, exists e, f acc x = Raise e) ->
  forall acc, exists e, fold_result f xs acc = Raise e.
Proof.
  intros Hin Hx. induction xs as [|y xs IH]; intros acc; [destruct Hin|].
  cbn [fold_result]. destruct Hin as [->|Hin].
  - destruct (Hx acc) as [e ->]. eauto.
  - destruct (f acc y); [now apply IH | eauto].
Qed.

(** C6. With the three records of sessions "a", "a" and "b" in the day's
    file, written by [log_summary] and read back as written, [get_stats]
    reports [unique_sessions = 2] and [total_logs = 3].  In general, when
    [get_stats] succeeds, [total_logs] is the number of non-blank lines of
    the file and, the session identifiers being strings as [log_summary]
    writes them, [unique_sessions] is the number of distinct ones. *)
Theorem stats_counts (w : World) (content : string) :
  files w !! today_path w = Some content ->
  (forall (w1 w2 w3 : World) (q1 q2 q3 : SummaryLogRequest.t),
     SummaryLogRequest.session_id q1 = "a" ->
     SummaryLogRequest.session_id q2 = "a" ->
     SummaryLogRequest.session_id q3 = "b" ->
     let records := [record_of w1 q1; record_of w2 q2; record_of w3 q3] in
     Forall (fun r => codec_ok dumps loads (JDict r)) records ->
     content = file_of dumps records ->
     reports (fst (get_stats loads w)) "unique_sessions" (JInt 2)
     /\ reports (fst (get_stats loads w)) "total_logs" (JInt 3))
  /\ (forall (reply : json) (entries : list json) (sids : list string),
        fst (get_stats loads w) = Ok reply ->
        mapM loads (nonblank_lines content) = Some entries ->
        Forall2 (fun e s => py_getitem e "session_id" = Ok (JStr s)) entries sids ->
        reports (Ok reply) "total_logs" (JInt (Z.of_nat (length (nonblank_lines content))))
        /\ reports (Ok reply) "unique_sessions"
             (JInt (Z.of_nat (size (list_to_set sids : gset string))))).
Proof.
  intros Hfile. split.
  - intros w1 w2 w3 q1 q2 q3 Ha1 Ha2 Hb records Hok ->.
    rewrite get_stats_run, Hfile. cbn [fst].
    rewrite (count_lines_parsed loads _ (map JDict records))
      by now apply (parsed_file_of dumps).
    subst records. cbn [map fold_result].
    rewrite (stats_entry_logged _ w1 q1 0 0) by reflexivity.
    rewrite (stats_entry_logged _ w2 q2 0 0) by reflexivity.
    rewrite (stats_entry_logged _ w3 q3 0 0) by reflexivity.
    rewrite Ha1, Ha2, Hb.
    split; eexists _, _; (split; [reflexivity|]); split; reflexivity.
  - intros reply entries sids Hreply Hparsed Hsids.
    rewrite get_stats_run, Hfile in Hreply. cbn [fst] in Hreply.
    rewrite (count_lines_parsed loads _ entries Hparsed) in Hreply.
    destruct (fold_result stats_entry entries stats_init) as [acc|] eqn:Hfold;
      [|discriminate].
    injection Hreply as <-.
    destruct (fold_stats_counts entries stats_init acc [] sids Hfold eq_refl
                NoDup_nil_2 Hsids) as (Hcount & ss & Hss & Hnd & Hset).
    split; eexists _, _; (split; [reflexivity|]); (split; [reflexivity|]); cbn; do 2 f_equal.
    + rewrite Hcount. cbn. now rewrite (length_mapM _ _ _ Hparsed).
    + rewrite Hss, length_map, <- (size_list_to_set (C:=gset string)) by assumption.
      rewrite Hset, list_to_set_nil. now rewrite (left_id_L ∅ (∪)).
Qed.

(** One turn of the loop on a record that has no [metadata]. *)
Lemma stats_entry_without_metadata (acc : stats_acc) (d : pydict) (sid : json) :
  dict_lookup "session_id" d = Some sid -> hashable sid = true ->
  dict_lookup "metadata" d = None ->
  exists frames people,
    stats_entry acc (JDict d) =
      Ok (mk_acc (total_logs acc + 1) frames people (add_session sid (sessions acc)))
    /\ num_add (total_frames acc) (JInt 0) = Ok frames
    /\ num_add (total_people acc) (JInt 0) = Ok people
    /\ (forall n, total_frames acc = PInt n -> frames = PInt n)
    /\ (forall n, total_people acc = PInt n -> people = PInt n).
Proof.
  intros Hsid Hhash Hmd.
  destruct (num_add_zero (total_frames acc)) as (frames & Hf & Hfn).
  destruct (num_add_zero (total_people acc)) as (people & Hp & Hpn).
  exists frames, people. repeat split; try assumption.
  unfold stats_entry, py_getitem, set_add, py_get. rewrite Hsid, Hhash, Hmd.
  cbn [default dict_lookup]. now rewrite Hf, Hp.
Qed.

(** The loop over records without metadata keeps both sums at 0. *)
Lemma fold_without_metadata (entries : list json) : forall acc,
  Forall lacks_metadata entries ->
  total_frames acc = PInt 0 -> total_people acc = PInt 0 ->
  exists acc',
    fold_result stats_entry entries acc = Ok acc'
    /\ total_frames acc' = PInt 0 /\ total_people acc' = PInt 0
    /\ total_logs acc' = total_logs acc + Z.of_nat (length entries).
Proof.
  induction entries as [|e entries IH]; intros acc Hall Hf Hp.
  - exists acc. repeat split; try assumption. cbn. lia.
  - inversion Hall as [|e0 es0 (d & sid & -> & Hsid & Hhash & Hmd) Hrest]; subst.
    destruct (stats_entry_without_metadata acc d sid Hsid Hhash Hmd)
      as (frames & people & Hstep & _ & _ & Hfn & Hpn).
    cbn [fold_result]. rewrite Hstep.
    rewrite (Hfn 0 Hf), (Hpn 0 Hp).
    destruct (IH (mk_acc (total_logs acc + 1) (PInt 0) (PInt 0)
                    (add_session sid (sessions acc))) Hrest eq_refl eq_refl)
      as (acc' & Hfold & Hf' & Hp' & Hlogs).
    exists acc'. repeat split; try assumption.
    rewrite Hlogs. cbn [total_logs length]. lia.
Qed.

(** C10. A record without a [metadata] key is tolerated: the loop of
    [get_stats] counts it and adds the default 0 to both sums (an integer
    sum is unchanged), so a file of such records is answered with both sums
    0.  A non-blank line whose object has no [session_id] key makes the
    whole call fail with status 500 and detail "Failed to calculate
    stats". *)
Theorem stats_missing_keys :
  (forall (acc : stats_acc) (d : pydict) (sid : json),
     dict_lookup "session_id" d = Some sid -> hashable sid = true ->
     dict_lookup "metadata" d = None ->
     exists frames people,
       stats_entry acc (JDict d) =
         Ok (mk_acc (total_logs acc + 1) frames people (add_session sid (sessions acc)))
       /\ num_add (total_frames acc) (JInt 0) = Ok frames
       /\ num_add (total_people acc) (JInt 0) = Ok people
       /\ (forall n, total_frames acc = PInt n -> frames = PInt n)
       /\ (forall n, total_people acc = PInt n -> people = PInt n))
  /\ (forall (w : World) (content : string) (entries : list json),
        files w !! today_path w = Some content ->
        mapM loads (nonblank_lines content) = Some entries ->
        Forall lacks_metadata entries ->
        reports (fst (get_stats loads w)) "total_logs" (JInt (Z.of_nat (length entries)))
        /\ reports (fst (get_stats loads w)) "total_frames_processed" (JInt 0)
        /\ reports (fst (get_stats loads w)) "total_people_detected" (JInt 0))
  /\ (forall (w : World) (content line : string) (d : pydict),
        files w !! today_path w = Some content ->
        In line (nonblank_lines content) ->
        loads line = Some (JDict d) ->
        dict_lookup "session_id" d = None ->
        fst (get_stats loads w) = Raise (HTTPException 500 (Text "Failed to calculate stats"))
        /\ is_server_error (status_of (fst (get_stats loads w))) = true).
Proof.
  split; [exact stats_entry_without_metadata|]. split.
  - intros w content entries Hfile Hparsed Hall.
    rewrite get_stats_run, Hfile. cbn [fst].
    rewrite (count_lines_parsed loads _ entries Hparsed).
    destruct (fold_without_metadata entries stats_init Hall eq_refl eq_refl)
      as (acc & -> & Hf & Hp & Hlogs).
    repeat split; eexists _, _; (split; [reflexivity|]); (split; [reflexivity|]); cbn.
    + now rewrite Hlogs.
    + now rewrite Hf.
    + now rewrite Hp.
  - intros w content line d Hfile Hin Hline Hsid.
    rewrite get_stats_run, Hfile. cbn [fst].
    apply filter_In in Hin as [Hin Hnb].
    destruct (fold_result_raises (count_line loads) (readlines content) line Hin) with
      (acc := stats_init) as [e ->]; [|split; reflexivity].
    intros acc. unfold count_line. rewrite Hnb, Hline.
    unfold stats_entry, py_getitem. rewrite Hsid. eauto.
Qed.

End StatsCounts.

(** ** Requests that do not fit the model *)

Section Validation.

Variable dumps : json -> string.
Variable as_str : json -> option string.
Variable as_int : json -> option Z.
Variable as_float : json -> option float.

Lemma required_missing {A} (read : json -> option A) (d : pydict) (k : string) :
  dict_lookup k d = None -> required read d k = None.
Proof. unfold required. now intros ->. Qed.

Lemma validate_metadata_missing (m : pydict) (k : string) :
  In k metadata_fields -> dict_lookup k m = None ->
  validate_metadata as_str as_int as_float (JDict m) = None.
Proof.
  intros Hin Hk. unfold validate_metadata.
  destruct (required as_int m "framesProcessed") eqn:H1; [cbn|reflexivity].
  destruct (required as_int m "peopleDetected") eqn:H2; [cbn|reflexivity].
  destruct (required as_float m "processingTimeSeconds") eqn:H3; [cbn|reflexivity].
  destruct (required as_str m "videoSource") eqn:H4; [cbn|reflexivity].
  destruct (required as_float m "inferenceTimeMs") eqn:H5; [cbn|reflexivity].
  destruct (required as_int m "totalDetections") eqn:H6; [cbn|reflexivity].
  cbn in Hin.
  destruct Hin as [<-|[<-|[<-|[<-|[<-|[<-|[]]]]]]];
    match goal with
    | H : required _ m ?k = Some _ |- _ => now rewrite (required_missing _ m k Hk) in H
    end.
Qed.

Lemma validate_request_missing (body : json) :
  missing_required_field body ->
  validate_request as_str as_int as_float body = None.
Proof.
  destruct body as [| | | | | |d]; try contradiction.
  unfold validate_request.
  destruct (required as_str d "session_id") eqn:H1; [cbn|reflexivity].
  destruct (required as_str d "summary") eqn:H2; [cbn|reflexivity].
  destruct (required (validate_metadata as_str as_int as_float) d "metadata") eqn:H3;
    [cbn|reflexivity].
  intros [(k & Hin & Hk)|(m & k & Hm & Hin & Hk)].
  - cbn in Hin. destruct Hin as [<-|[<-|[<-|[]]]];
      match goal with
      | H : required _ d ?k = Some _ |- _ => now rewrite (required_missing _ d k Hk) in H
      end.
  - unfold required in H3. rewrite Hm in H3.
    now rewrite (validate_metadata_missing m k Hin Hk) in H3.
Qed.

(** C5. A body that lacks a required field (anyone of [session_id],
    [summary], [metadata], or a field of the metadata object) is answered
    with a validation error, status 422, a client error; the handler is
    not run and every file is left as it was, so no line is appended to the
    day's file. *)
Theorem missing_field_rejected (body : json) (w : World) :
  missing_required_field body ->
  post_log_summary dumps as_str as_int as_float body w = (Raise RequestValidationError, w)
  /\ status_of (fst (post_log_summary dumps as_str as_int as_float body w)) = 422
  /\ is_client_error
       (status_of (fst (post_log_summary dumps as_str as_int as_float body w))) = true
  /\ files (snd (post_log_summary dumps as_str as_int as_float body w)) = files w.
Proof.
  intros Hmiss. unfold post_log_summary.
  rewrite (validate_request_missing body Hmiss). repeat split.
Qed.

End Validation.

(** ** The theorems on concrete records *)

Module StatsWitnesses.
Import Examples.

Example three_requests_logged :
  files w3 !! today_path w3 = Some (file_of RefJson.dumps three_records).
Proof. vm_compute. reflexivity. Qed.

Lemma three_records_codec_ok :
  Forall (fun r => codec_ok RefJson.dumps RefJson.loads (JDict r)) three_records.
Proof. repeat constructor; vm_compute; reflexivity. Qed.

(** C1 on the file that three calls of [log_summary] leave. *)
Lemma stats_sums_are_zero_witness :
  reports (fst (get_stats RefJson.loads w3)) "total_frames_processed" (JInt 0)
  /\ reports (fst (get_stats RefJson.loads w3)) "total_people_detected" (JInt 0).
Proof.
  destruct (stats_sums_are_zero RefJson.dumps RefJson.loads w3
              [(world0, request "a" None);
               (w1, request "a" (Some "2024-03-07T11:59:58"));
               (w2, request "b" (Some ""))])
    as (Hframes & Hpeople & _).
  - exact three_records_codec_ok.
  - vm_compute. reflexivity.
  - now split.
Defined.

(** C6 on the file that three calls of [log_summary] leave. *)
Lemma stats_counts_witness :
  reports (fst (get_stats RefJson.loads w3)) "unique_sessions" (JInt 2)
  /\ reports (fst (get_stats RefJson.loads w3)) "total_logs" (JInt 3).
Proof.
  apply (proj1 (stats_counts RefJson.dumps RefJson.loads w3
                  (file_of RefJson.dumps three_records) ltac:(vm_compute; reflexivity))
           world0 w1 w2
           (request "a" None) (request "a" (Some "2024-03-07T11:59:58"))
           (request "b" (Some "")));
    try reflexivity.
  exact three_records_codec_ok.
Defined.

(** C10 on a record without metadata and on a line without a session. *)
Lemma stats_missing_keys_witness :
  stats_entry stats_init (JDict bare_record) = Ok (mk_acc 1 (PInt 0) (PInt 0) [JStr "a"])
  /\ reports (fst (get_stats RefJson.loads (with_file bare_file world0)))
       "total_frames_processed" (JInt 0)
  /\ fst (get_stats RefJson.loads (with_file (line_of "a" +:+ no_session) world0))
     = Raise (HTTPException 500 (Text "Failed to calculate stats")).
Proof.
  destruct (stats_missing_keys RefJson.loads) as (Hmeta & Hfile & Hsession). split.
  - destruct (Hmeta stats_init bare_record (JStr "a") eq_refl eq_refl eq_refl)
      as (frames & people & -> & _ & _ & Hf & Hp).
    now rewrite (Hf 0 eq_refl), (Hp 0 eq_refl).
  - split.
    + apply (Hfile (with_file bare_file world0) bare_file [JDict bare_record]);
        [vm_compute; reflexivity | vm_compute; reflexivity |].
      repeat constructor. exists bare_record, (JStr "a"). repeat split.
    + apply (Hsession (with_file (line_of "a" +:+ no_session) world0)
               (line_of "a" +:+ no_session) no_session [("summary", JStr "x")]);
        [vm_compute; reflexivity | vm_compute; auto | vm_compute; reflexivity | reflexivity].
Defined.

End StatsWitnesses.

Module ValidationWitnesses.
Import Examples.

(** The same body with the field is accepted and logged. *)
Example complete_body_accepted :
  fst (post_log_summary RefJson.dumps strict_str strict_int strict_float
         (JDict [("session_id", JStr "a");
                 ("summary", JStr "Two passengers, driver attentive");
                 ("metadata", metadata_body)]) world0)
  = Ok (SummaryLogResponse.mk "success" "Summary logged successfully"
          "3f2b8c1e-5d4a-4c6b-9e7f-000000000000" "2024-03-07T12:00:00").
Proof. vm_compute. reflexivity. Qed.

(** C5 on a body without [session_id], read by strict readers. *)
Lemma missing_field_rejected_witness :
  post_log_summary RefJson.dumps strict_str strict_int strict_float
    body_without_session world0 = (Raise RequestValidationError, world0)
  /\ files (snd (post_log_summary RefJson.dumps strict_str strict_int strict_float
                   body_without_session world0)) = files world0.
Proof.
  destruct (missing_field_rejected RefJson.dumps strict_str strict_int strict_float
              body_without_session world0) as (Hreply & _ & _ & Hfiles).
  - left. exists "session_id". split; [now left | reflexivity].
  - now split.
Defined.

End ValidationWitnesses.


(** * Further properties *)

(** ** Dictionaries *)

Lemma dict_lookup_set_eq (k : string) (v : json) (d : pydict) :
  dict_lookup k (dict_set k v d) = Some v.
Proof.
  induction d as [|[k' v'] d IH]; cbn.
  - now rewrite String.eqb_refl.
  - destruct (String.eqb k k') eqn:Hk; cbn; rewrite Hk; [reflexivity | exact IH].
Qed.

Lemma dict_lookup_set_ne (k k' : string) (v : json) (d : pydict) :
  k <> k' -> dict_lookup k' (dict_set k v d) = dict_lookup k' d.
Proof.
  intros Hne. induction d as [|[k0 v0] d IH]; cbn.
  - apply String.eqb_neq in Hne. now rewrite String.eqb_sym, Hne.
  - destruct (String.eqb k k0) eqn:Hk; cbn.
    + apply String.eqb_eq in Hk as <-.
      assert (String.eqb k' k = false) as -> by (apply String.eqb_neq; congruence).
      reflexivity.
    + destruct (String.eqb k' k0); [reflexivity | exact IH].
Qed.

(** ** [log_to_file] *)

Section LogToFile.

Variable dumps : json -> string.

Lemma log_to_file_run (data : pydict) (w : World) :
  log_to_file dumps data w =
  if disk_fault w then (Ok false, tick (tick w))
  else
    (Ok true,
     set_files
       (<[today_path w :=
            default "" (files w !! today_path w)
            +:+ dumps (JDict (dict_set "server_timestamp"
                                (JStr (isoformat (clock w (S (ticks w))))) data))
            +:+ NL]> (files w))
       (tick (tick w))).
Proof.
  destruct w as [fs clk t us d fault].
  unfold log_to_file, try_except, get_log_filename, append_text, now.
  unfold mbind, M_bind, bind, mret, M_ret, ret.
  destruct fault; reflexivity.
Qed.


(** X2. A successful [log_to_file] only appends: the day's file keeps its
    former content and gains one text, the serialised object followed by a
    newline, and no other file changes.  The object written has the server's
    clock under [server_timestamp], whatever [data] held there, and every
    other field as [data] has it. *)
Theorem log_to_file_appends (data : pydict) (w : World) :
  disk_fault w = false ->
  exists record : pydict,
    files (snd (log_to_file dumps data w))
    = <[today_path w :=
          default "" (files w !! today_path w) +:+ dumps (JDict record) +:+ NL]> (files w)
    /\ dict_lookup "server_timestamp" record
       = Some (JStr (isoformat (clock w (S (ticks w)))))
    /\ (forall k, k <> "server_timestamp" -> dict_lookup k record = dict_lookup k data)
    /\ (forall p, p <> today_path w ->
          files (snd (log_to_file dumps data w)) !! p = files w !! p).
Proof.
  intros Hdisk. rewrite log_to_file_run, Hdisk. cbn [snd].
  eexists. split; [reflexivity|]. split; [apply dict_lookup_set_eq|]. split.
  - intros k Hk. apply dict_lookup_set_ne. congruence.
  - intros p Hp. cbn. now apply lookup_insert_ne.
Qed.


End LogToFile.

(** ** The handlers that only read *)

Lemma root_run (w : World) :
  root w =
  (Ok (JDict [("message", JStr "In-Car Monitoring Backend is running");
              ("timestamp", JStr (isoformat (clock w (ticks w))));
              ("status", JStr "healthy")]), tick w).
Proof. reflexivity. Qed.

Lemma health_check_run (w : World) :
  health_check w =
  (Ok (JDict [("status", JStr "healthy");
              ("timestamp", JStr (isoformat (clock w (ticks w))));
              ("logs_directory", JStr "logs");
              ("current_log_file", JStr (day_file (clock w (S (ticks w)))))]),
   tick (tick w)).
Proof. reflexivity. Qed.

Section Readers.

Variable loads : string -> option json.

(** A line that does not parse fails the loop, whatever the loop does with
    the lines that parse. *)
Lemma fold_per_line_unparsed {S} (g : S -> json -> result S) (lines : list string) :
  forall acc,
  mapM loads (List.filter strip_truthy lines) = None ->
  exists e, fold_result (per_line loads g) lines acc = Raise e.
Proof.
  induction lines as [|line lines IH]; intros acc Hm; [discriminate|].
  cbn [List.filter] in Hm. cbn [fold_result]. unfold per_line at 1.
  destruct (strip_truthy line).
  - cbn in Hm. destruct (loads line) as [v|]; [|eauto]. cbn in Hm.
    destruct (g acc v); [|eauto]. apply IH.
    destruct (mapM loads (List.filter strip_truthy lines)); [discriminate | reflexivity].
  - now apply IH.
Qed.

(** When the loop of [get_stats] ends well, every non-blank line was parsed
    and the loop ran over the parsed records. *)
Lemma count_lines_ok (content : string) (acc : stats_acc) :
  fold_result (count_line loads) (readlines content) stats_init = Ok acc ->
  exists entries,
    mapM loads (nonblank_lines content) = Some entries
    /\ fold_result stats_entry entries stats_init = Ok acc.
Proof.
  intros Hfold. destruct (mapM loads (nonblank_lines content)) as [entries|] eqn:Hm.
  - exists entries. split; [reflexivity|].
    now rewrite <- (count_lines_parsed loads content entries Hm).
  - destruct (fold_per_line_unparsed stats_entry (readlines content) stats_init Hm) as [e He].
    change (per_line loads stats_entry) with (count_line loads) in He. congruence.
Qed.

(** The loop counts one per record. *)
Lemma fold_total_logs (entries : list json) : forall acc acc',
  fold_result stats_entry entries acc = Ok acc' ->
  total_logs acc' = total_logs acc + Z.of_nat (length entries).
Proof.
  induction entries as [|e entries IH]; intros acc acc' Hfold.
  - cbn in Hfold. injection Hfold as <-. cbn. lia.
  - cbn [fold_result] in Hfold.
    destruct (stats_entry acc e) as [acc1|] eqn:He; [|discriminate].
    apply stats_entry_inv in He as [Hlogs _].
    rewrite (IH acc1 acc' Hfold), Hlogs. cbn [length]. lia.
Qed.

(** X4. The four GET handlers never write: [root], [health_check],
    [get_today_logs] and [get_stats] leave every file as it was and draw no
    UUID, whether they succeed or fail; all they consume is the clock. *)
Theorem get_handlers_never_write (w : World) :
  (files (snd (root w)) = files w /\ draws (snd (root w)) = draws w)
  /\ (files (snd (health_check w)) = files w /\ draws (snd (health_check w)) = draws w)
  /\ (files (snd (get_today_logs loads w)) = files w
      /\ draws (snd (get_today_logs loads w)) = draws w)
  /\ (files (snd (get_stats loads w)) = files w
      /\ draws (snd (get_stats loads w)) = draws w).
Proof.
  rewrite root_run, health_check_run, get_today_logs_run, get_stats_run.
  repeat split.
Qed.

(** X5. No exception leaves a reading handler but its own: [root] and
    [health_check] always succeed; [get_today_logs] and [get_stats] succeed
    when the day's file does not exist, and when they fail it is with
    status 500 and their fixed detail, whatever was raised inside. *)
Theorem readers_fail_generically (w : World) :
  (exists reply, fst (root w) = Ok reply)
  /\ (exists reply, fst (health_check w) = Ok reply)
  /\ (forall e, fst (get_today_logs loads w) = Raise e ->
        e = HTTPException 500 (Text "Failed to read logs")
        /\ is_Some (files w !! today_path w))
  /\ (forall e, fst (get_stats loads w) = Raise e ->
        e = HTTPException 500 (Text "Failed to calculate stats")
        /\ is_Some (files w !! today_path w)).
Proof.
  rewrite root_run, health_check_run, get_today_logs_run, get_stats_run. cbn [fst].
  split; [eauto|]. split; [eauto|]. split; intros e He.
  - destruct (files w !! today_path w) as [content|]; [|discriminate].
    destruct (fold_result (read_line loads) (readlines content) []); [discriminate|].
    injection He as <-. split; [reflexivity | eauto].
  - destruct (files w !! today_path w) as [content|]; [|discriminate].
    destruct (fold_result (count_line loads) (readlines content) stats_init);
      [discriminate|].
    injection He as <-. split; [reflexivity | eauto].
Qed.

(** X6. The two readers agree on the number of records: whenever
    [get_stats] reports a [total_logs], [get_today_logs] on the same world
    succeeds and returns that many records, with that number as [count]. *)
Theorem stats_agree_with_logs (w : World) (n : Z) :
  reports (fst (get_stats loads w)) "total_logs" (JInt n) ->
  exists logs,
    fst (get_today_logs loads w) =
      Ok (JDict [("logs", JList logs); ("count", JInt n);
                 ("log_file", JStr (today_path w))])
    /\ Z.of_nat (length logs) = n.
Proof.
  intros (reply & stats & Hreply & Hstats & Hn).
  rewrite get_stats_run in Hreply. rewrite get_today_logs_run. cbn [fst] in *.
  destruct (files w !! today_path w) as [content|].
  - destruct (fold_result (count_line loads) (readlines content) stats_init)
      as [acc|] eqn:Hfold; [|discriminate].
    injection Hreply as <-. cbn in Hstats. injection Hstats as <-.
    cbn in Hn. injection Hn as <-.
    destruct (count_lines_ok content acc Hfold) as (entries & Hparsed & Hentries).
    rewrite read_lines_parsed. unfold nonblank_lines in Hparsed. rewrite Hparsed.
    exists entries. rewrite (fold_total_logs entries stats_init acc Hentries).
    cbn [app total_logs stats_init]. split; [|lia].
    now rewrite Z.add_0_l.
  - injection Hreply as <-. cbn in Hstats. injection Hstats as <-. discriminate.
Qed.

End Readers.

(** ** A day of requests *)

Lemma record_of_set_files (fs : gmap string string) (w : World) (q : SummaryLogRequest.t) :
  record_of (set_files fs w) q = record_of w q.
Proof.
  unfold record_of. now destruct (SummaryLogRequest.timestamp q) as [[|]|].
Qed.

Lemma after_log_summary_set_files (fs : gmap string string) (w : World)
    (q : SummaryLogRequest.t) :
  after_log_summary (set_files fs w) q = set_files fs (after_log_summary w q).
Proof.
  unfold after_log_summary. now destruct (SummaryLogRequest.timestamp q) as [[|]|].
Qed.

Lemma records_of_run_set_files (requests : list SummaryLogRequest.t) :
  forall (fs : gmap string string) (w : World),
  records_of_run (set_files fs w) requests = records_of_run w requests.
Proof.
  induction requests as [|q qs IH]; intros fs w; [reflexivity|].
  cbn [records_of_run]. now rewrite record_of_set_files, after_log_summary_set_files, IH.
Qed.

Lemma after_log_summary_frame (w : World) (q : SummaryLogRequest.t) :
  clock (after_log_summary w q) = clock w
  /\ uuids (after_log_summary w q) = uuids w
  /\ draws (after_log_summary w q) = S (draws w)
  /\ disk_fault (after_log_summary w q) = disk_fault w
  /\ files (after_log_summary w q) = files w.
Proof.
  unfold after_log_summary. now destruct (SummaryLogRequest.timestamp q) as [[|]|].
Qed.

Lemma one_day_target_path (w : World) (date : string) (q : SummaryLogRequest.t) :
  one_day w date ->
  target_path w q = "logs/monitoring_logs_" +:+ date +:+ ".jsonl".
Proof.
  intros Hday. unfold target_path, today_path, day_file.
  destruct (SummaryLogRequest.timestamp q) as [[|]|]; cbn; now rewrite Hday.
Qed.

Section DayOfRequests.

Variable dumps : json -> string.
Variable loads : string -> option json.

Lemma file_of_nonempty (records later : list pydict) (r : pydict) :
  file_of dumps (records ++ r :: later) <> "".
Proof.
  destruct records as [|r0 records]; cbn [app file_of];
    match goal with |- dumps ?v +:+ _ <> _ => destruct (dumps v) end; discriminate.
Qed.

(** What one successful call leaves. *)
Lemma log_summary_step (w w1 : World) (q : SummaryLogRequest.t)
    (resp : SummaryLogResponse.t) :
  log_summary dumps q w = (Ok resp, w1) ->
  disk_fault w = false
  /\ SummaryLogResponse.log_id resp = uuids w (draws w)
  /\ w1 = set_files
            (<[target_path w q :=
                 default "" (files w !! target_path w q)
                 +:+ dumps (JDict (record_of w q)) +:+ NL]> (files w))
            (after_log_summary w q).
Proof.
  rewrite log_summary_run. destruct (disk_fault w); [discriminate|].
  intros H. injection H as <- <-. now repeat split.
Qed.

(** The client's run on one day with a working disk: every call succeeds
    and the day's file grows by the records of the run, in order. *)
Lemma log_each_run (date : string) (requests : list SummaryLogRequest.t) :
  forall (w : World) (earlier : list pydict),
  disk_fault w = false -> one_day w date ->
  default "" (files w !! ("logs/monitoring_logs_" +:+ date +:+ ".jsonl"))
  = file_of dumps earlier ->
  exists replies w',
    log_each dumps requests w = (Ok replies, w')
    /\ length replies = length requests
    /\ default "" (files w' !! ("logs/monitoring_logs_" +:+ date +:+ ".jsonl"))
       = file_of dumps (earlier ++ records_of_run w requests)
    /\ (requests <> [] ->
        is_Some (files w' !! ("logs/monitoring_logs_" +:+ date +:+ ".jsonl")))
    /\ clock w' = clock w
    /\ Forall2 (fun reply record =>
                  dict_lookup "log_id" record = Some (JStr (SummaryLogResponse.log_id reply))
                  /\ dict_lookup "timestamp" record
                     = Some (JStr (SummaryLogResponse.timestamp reply)))
         replies (records_of_run w requests).
Proof.
  induction requests as [|q qs IH]; intros w earlier Hdisk Hday Hfile.
  - exists [], w. cbn [records_of_run]. rewrite app_nil_r.
    repeat split; [assumption | congruence | constructor].
  - cbn [log_each records_of_run]. unfold mbind, M_bind, bind.
    rewrite log_summary_run, Hdisk.
    rewrite (one_day_target_path w date q Hday).
    set (path := "logs/monitoring_logs_" +:+ date +:+ ".jsonl") in *.
    set (w1 := set_files _ (after_log_summary w q)).
    destruct (after_log_summary_frame w q) as (Hclock & Huuids & Hdraws & Hfault & Hfiles).
    destruct (IH w1 (earlier ++ [record_of w q])) as
      (replies & w' & Hrun & Hlen & Hcontent & _ & Hclock' & Hrecords).
    + subst w1. unfold set_files. cbn [disk_fault]. exact (eq_trans Hfault Hdisk).
    + intros n. subst w1. unfold set_files. cbn [clock]. rewrite Hclock. apply Hday.
    + subst w1. unfold set_files. cbn [files]. rewrite lookup_insert_eq. cbn [default].
      now rewrite Hfile, file_of_snoc.
    + rewrite Hrun. exists (SummaryLogResponse.mk "success" "Summary logged successfully"
                 (uuids w (draws w))
                 (effective_timestamp w (SummaryLogRequest.timestamp q)) :: replies), w'.
      subst w1. rewrite records_of_run_set_files in Hcontent, Hrecords.
      rewrite <- app_assoc in Hcontent. cbn [app] in Hcontent.
      repeat split.
      * cbn [length]. now rewrite Hlen.
      * exact Hcontent.
      * intros _. destruct (files w' !! path) as [c|] eqn:Hc; [eauto|].
        cbn [default] in Hcontent. symmetry in Hcontent.
        now apply file_of_nonempty in Hcontent.
      * rewrite Hclock'. unfold set_files. cbn [clock]. exact Hclock.
      * constructor; [|exact Hrecords].
        destruct q as [sid summ md ts]. split; reflexivity.
Qed.

End DayOfRequests.

Lemma records_of_run_length (requests : list SummaryLogRequest.t) : forall w,
  length (records_of_run w requests) = length requests.
Proof.
  induction requests as [|q qs IH]; intros w; [reflexivity|].
  cbn [records_of_run length]. now rewrite IH.
Qed.

(** The records of a run carry what the requests submitted, in order. *)
Lemma records_of_run_fields (requests : list SummaryLogRequest.t) : forall w,
  Forall2 (fun q record =>
             dict_lookup "session_id" record = Some (JStr (SummaryLogRequest.session_id q))
             /\ dict_lookup "summary" record = Some (JStr (SummaryLogRequest.summary q))
             /\ dict_lookup "metadata" record
                = Some (JDict (MonitoringMetadata.dict (SummaryLogRequest.metadata q))))
    requests (records_of_run w requests).
Proof.
  induction requests as [|q qs IH]; intros w; constructor; [|apply IH].
  destruct q as [sid summ md ts]. repeat split; reflexivity.
Qed.

Lemma records_of_run_sessions (requests : list SummaryLogRequest.t) : forall w,
  Forall2 (fun e s => py_getitem e "session_id" = Ok (JStr s))
    (map JDict (records_of_run w requests))
    (map SummaryLogRequest.session_id requests).
Proof.
  induction requests as [|q qs IH]; intros w; constructor; [|apply IH].
  now destruct q as [sid summ md ts].
Qed.

(** The loop of [get_stats] over the records of a run. *)
Lemma fold_records_of_run (requests : list SummaryLogRequest.t) : forall w acc,
  total_frames acc = PInt 0 -> total_people acc = PInt 0 ->
  exists acc',
    fold_result stats_entry (map JDict (records_of_run w requests)) acc = Ok acc'
    /\ total_frames acc' = PInt 0 /\ total_people acc' = PInt 0.
Proof.
  induction requests as [|q qs IH]; intros w acc Hf Hp.
  - exists acc. now repeat split.
  - cbn [records_of_run map fold_result].
    rewrite (stats_entry_logged acc w q 0 0) by assumption. apply IH; reflexivity.
Qed.

Lemma NoDup_map_injective {A B} (f : A -> B) (l : list A) :
  (forall x y, f x = f y -> x = y) -> NoDup l -> NoDup (map f l).
Proof.
  intros Hinj. induction 1 as [|x l Hx Hl IH]; cbn; constructor; [|exact IH].
  rewrite list_elem_of_In, in_map_iff. intros (y & Hxy & Hy).
  apply Hinj in Hxy as ->. now apply list_elem_of_In in Hy.
Qed.

Section DayTheorems.

Variable dumps : json -> string.
Variable loads : string -> option json.

(** The run of the client over a day's file of earlier records. *)
Lemma day_file_after_run (w : World) (date : string)
    (requests : list SummaryLogRequest.t) (earlier : list pydict) :
  disk_fault w = false -> one_day w date -> requests <> [] ->
  default "" (files w !! ("logs/monitoring_logs_" +:+ date +:+ ".jsonl"))
  = file_of dumps earlier ->
  exists replies w',
    log_each dumps requests w = (Ok replies, w')
    /\ today_path w' = "logs/monitoring_logs_" +:+ date +:+ ".jsonl"
    /\ files w' !! today_path w'
       = Some (file_of dumps (earlier ++ records_of_run w requests))
    /\ Forall2 (fun reply record =>
                  dict_lookup "log_id" record = Some (JStr (SummaryLogResponse.log_id reply))
                  /\ dict_lookup "timestamp" record
                     = Some (JStr (SummaryLogResponse.timestamp reply)))
         replies (records_of_run w requests).
Proof.
  intros Hdisk Hday Hne Hfile.
  destruct (log_each_run dumps date requests w earlier Hdisk Hday Hfile)
    as (replies & w' & Hrun & _ & Hcontent & Hsome & Hclock & Hlinks).
  exists replies, w'. split; [exact Hrun|].
  assert (today_path w' = "logs/monitoring_logs_" +:+ date +:+ ".jsonl") as Hpath.
  { unfold today_path, day_file. now rewrite Hclock, Hday. }
  split; [exact Hpath|]. split; [|exact Hlinks].
  rewrite Hpath. destruct (Hsome Hne) as [content Hc].
  rewrite Hc in Hcontent |- *. simpl in Hcontent. congruence.
Qed.

(** X7. Requests posted one after the other on one day, with a working
    disk, all succeed, and [get_today_logs] then returns the records that
    were in the day's file before followed by one record per request, in
    the order of posting: each carries the [session_id], [summary] and
    [metadata] of its request and the [log_id] and [timestamp] of its
    reply.  (Every record is read back by [json.loads] as written.) *)
Theorem day_of_requests_read_back (w : World) (date : string)
    (requests : list SummaryLogRequest.t) (earlier : list pydict) :
  disk_fault w = false -> one_day w date -> requests <> [] ->
  default "" (files w !! ("logs/monitoring_logs_" +:+ date +:+ ".jsonl"))
  = file_of dumps earlier ->
  Forall (fun r => codec_ok dumps loads (JDict r)) (earlier ++ records_of_run w requests) ->
  exists (replies : list SummaryLogResponse.t) (records : list pydict),
    fst (log_each dumps requests w) = Ok replies
    /\ fst (get_today_logs loads (snd (log_each dumps requests w)))
       = Ok (JDict [("logs", JList (map JDict (earlier ++ records)));
                    ("count", JInt (Z.of_nat (length earlier + length requests)));
                    ("log_file", JStr ("logs/monitoring_logs_" +:+ date +:+ ".jsonl"))])
    /\ Forall2 (fun q record =>
                  dict_lookup "session_id" record
                  = Some (JStr (SummaryLogRequest.session_id q))
                  /\ dict_lookup "summary" record = Some (JStr (SummaryLogRequest.summary q))
                  /\ dict_lookup "metadata" record
                     = Some (JDict (MonitoringMetadata.dict (SummaryLogRequest.metadata q))))
         requests records
    /\ Forall2 (fun reply record =>
                  dict_lookup "log_id" record = Some (JStr (SummaryLogResponse.log_id reply))
                  /\ dict_lookup "timestamp" record
                     = Some (JStr (SummaryLogResponse.timestamp reply)))
         replies records.
Proof.
  intros Hdisk Hday Hne Hfile Hcodec.
  destruct (day_file_after_run w date requests earlier Hdisk Hday Hne Hfile)
    as (replies & w' & Hrun & Hpath & Hcontent & Hlinks).
  exists replies, (records_of_run w requests). rewrite Hrun. cbn [fst snd].
  split; [reflexivity|]. split; [|split; [apply records_of_run_fields | exact Hlinks]].
  rewrite get_today_logs_run, Hcontent. cbn [fst].
  rewrite read_lines_parsed.
  pose proof (parsed_file_of dumps loads _ Hcodec) as Hparsed.
  unfold nonblank_lines in Hparsed. rewrite Hparsed. cbn [app]. unfold logs_reply.
  rewrite Hpath, length_map, length_app, records_of_run_length. reflexivity.
Qed.

(** X8. After requests posted one after the other on a day that had no
    file yet, [get_stats] reports as [total_logs] the number of requests, as
    [unique_sessions] the number of distinct session identifiers among
    them, and 0 for both sums. *)
Theorem day_of_requests_stats (w : World) (date : string)
    (requests : list SummaryLogRequest.t) :
  disk_fault w = false -> one_day w date -> requests <> [] ->
  files w !! ("logs/monitoring_logs_" +:+ date +:+ ".jsonl") = None ->
  Forall (fun r => codec_ok dumps loads (JDict r)) (records_of_run w requests) ->
  let after := snd (log_each dumps requests w) in
  reports (fst (get_stats loads after)) "total_logs" (JInt (Z.of_nat (length requests)))
  /\ reports (fst (get_stats loads after)) "unique_sessions"
       (JInt (Z.of_nat (size (list_to_set (map SummaryLogRequest.session_id requests)
                                : gset string))))
  /\ reports (fst (get_stats loads after)) "total_frames_processed" (JInt 0)
  /\ reports (fst (get_stats loads after)) "total_people_detected" (JInt 0).
Proof.
  intros Hdisk Hday Hne Hnone Hcodec after.
  destruct (day_file_after_run w date requests [] Hdisk Hday Hne) as
    (replies & w' & Hrun & Hpath & Hcontent & _).
  { now rewrite Hnone. }
  subst after. rewrite Hrun. cbn [snd app] in *.
  rewrite get_stats_run, Hcontent. cbn [fst].
  rewrite (count_lines_parsed loads _ (map JDict (records_of_run w requests)))
    by now apply (parsed_file_of dumps).
  destruct (fold_records_of_run requests w stats_init eq_refl eq_refl)
    as (acc & Hfold & Hf & Hp).
  rewrite Hfold.
  destruct (fold_stats_counts _ stats_init acc []
              (map SummaryLogRequest.session_id requests) Hfold eq_refl NoDup_nil_2)
    as (Hcount & ss & Hss & Hnd & Hset).
  { apply records_of_run_sessions. }
  repeat split; eexists _, _; (split; [reflexivity|]); (split; [reflexivity|]); cbn.
  - rewrite Hcount, length_map, records_of_run_length. reflexivity.
  - rewrite Hss, length_map, <- (size_list_to_set (C:=gset string)) by assumption.
    rewrite Hset, list_to_set_nil. now rewrite (left_id_L ∅ (∪)).
  - now rewrite Hf.
  - now rewrite Hp.
Qed.

(** The identifiers of a run are the next UUIDs of the source, in order. *)
Lemma log_each_ids (requests : list SummaryLogRequest.t) : forall w replies w',
  log_each dumps requests w = (Ok replies, w') ->
  map SummaryLogResponse.log_id replies
  = map (uuids w) (seq (draws w) (length requests)).
Proof.
  induction requests as [|q qs IH]; intros w replies w' Hrun.
  - cbn in Hrun. injection Hrun as <- _. reflexivity.
  - cbn [log_each] in Hrun. unfold mbind, M_bind, bind in Hrun.
    destruct (log_summary dumps q w) as [[resp|e] w1] eqn:Hq; [|discriminate].
    apply log_summary_step in Hq as (_ & Hid & ->).
    destruct (log_each dumps qs _) as [[rs|e] w2] eqn:Hqs; [|discriminate].
    cbn in Hrun. injection Hrun as <- _.
    apply IH in Hqs. cbn [map length seq]. rewrite Hid, Hqs. f_equal.
    destruct (after_log_summary_frame w q) as (_ & Huuids & Hdraws & _).
    unfold set_files. cbn [uuids draws]. now rewrite Huuids, Hdraws.
Qed.

(** X9. The replies of successive successful calls carry different
    [log_id]s, as long as the UUID source never repeats itself: each call
    takes the next UUID. *)
Theorem log_ids_distinct (requests : list SummaryLogRequest.t) (w w' : World)
    (replies : list SummaryLogResponse.t) :
  log_each dumps requests w = (Ok replies, w') ->
  (forall i j, uuids w i = uuids w j -> i = j) ->
  NoDup (map SummaryLogResponse.log_id replies)
  /\ draws w' = (draws w + length requests)%nat.
Proof.
  intros Hrun Hinj. split.
  - rewrite (log_each_ids requests w replies w' Hrun).
    apply NoDup_map_injective; [exact Hinj | apply NoDup_seq].
  - revert w replies w' Hrun Hinj.
    induction requests as [|q qs IH]; intros w replies w' Hrun Hinj.
    + cbn in Hrun. injection Hrun as _ <-. cbn. lia.
    + cbn [log_each] in Hrun. unfold mbind, M_bind, bind in Hrun.
      destruct (log_summary dumps q w) as [[resp|e] w1] eqn:Hq; [|discriminate].
      apply log_summary_step in Hq as (_ & _ & ->).
      destruct (log_each dumps qs _) as [[rs|e] w2] eqn:Hqs; [|discriminate].
      cbn in Hrun. injection Hrun as _ <-.
      destruct (after_log_summary_frame w q) as (_ & Huuids & Hdraws & _).
      rewrite (IH _ rs w2 Hqs).
      * unfold set_files. cbn [draws length]. rewrite Hdraws. lia.
      * unfold set_files. cbn [uuids]. now rewrite Huuids.
Qed.

End DayTheorems.

(** ** One file per day *)

Lemma length_append (a b : string) :
  String.length (a +:+ b) = (String.length a + String.length b)%nat.
Proof.
  induction a as [|x a IH]; [reflexivity|].
  rewrite append_cons. cbn. now f_equal.
Qed.

Lemma append_inj_l (p a b : string) : p +:+ a = p +:+ b -> a = b.
Proof.
  induction p as [|x p IH]; [trivial|].
  rewrite !append_cons. intros H. injection H as H. now apply IH.
Qed.

Lemma append_inj_r (s : string) : forall a b, a +:+ s = b +:+ s -> a = b.
Proof.
  induction a as [|x a IH]; intros [|y b] H.
  - reflexivity.
  - apply (f_equal String.length) in H. rewrite !length_append in H. cbn in H. lia.
  - apply (f_equal String.length) in H. rewrite !length_append in H. cbn in H. lia.
  - rewrite !append_cons in H. injection H as -> H. f_equal. now apply IH.
Qed.

(** Two readings of the clock get the same file exactly when they show the
    same date. *)
Lemma day_file_inj (d1 d2 : datetime) :
  day_file d1 = day_file d2 <-> strftime_ymd d1 = strftime_ymd d2.
Proof.
  unfold day_file. split; [|now intros ->].
  intros H. apply append_inj_l in H. now apply append_inj_r in H.
Qed.

Section OtherDays.

Variable dumps : json -> string.
Variable loads : string -> option json.

(** X10. A record is filed under the date the server's clock shows when it
    is written, and the readers look at the file of the date of the
    reading: a [log_summary] whose file is of another date than the one a
    reader sees changes nothing of what [get_today_logs] and [get_stats]
    answer there. *)
Theorem log_summary_other_day (w reader : World) (q : SummaryLogRequest.t) :
  strftime_ymd (clock reader (ticks reader))
  <> strftime_ymd (clock w (ticks (after_resolve w (SummaryLogRequest.timestamp q)))) ->
  let after := files (snd (log_summary dumps q w)) in
  fst (get_today_logs loads (set_files after reader))
  = fst (get_today_logs loads (set_files (files w) reader))
  /\ fst (get_stats loads (set_files after reader))
     = fst (get_stats loads (set_files (files w) reader)).
Proof.
  intros Hdate after. subst after.
  assert (files (snd (log_summary dumps q w)) !! today_path reader
          = files w !! today_path reader) as Hsame.
  { rewrite log_summary_run. destruct (disk_fault w); cbn [snd].
    - unfold after_log_summary.
      now destruct (SummaryLogRequest.timestamp q) as [[|]|].
    - unfold set_files. cbn [files]. apply lookup_insert_ne.
      unfold target_path, today_path. intros Heq. apply day_file_inj in Heq.
      apply Hdate. rewrite <- Heq.
      now destruct (SummaryLogRequest.timestamp q) as [[|]|]. }
  rewrite !get_today_logs_run, !get_stats_run. cbn [fst].
  change (today_path (set_files ?fs reader)) with (today_path reader).
  change (files (set_files ?fs reader)) with fs.
  change (files (set_files (files w) reader)) with (files w).
  now rewrite Hsame.
Qed.

End OtherDays.

(** ** What [get_stats] accepts and what it adds up *)

Lemma num_add_not_number (a : pynum) (x : json) :
  is_number x = false -> num_add a x = Raise TypeError.
Proof. destruct a, x; cbn; intros H; try discriminate; reflexivity. Qed.

(** A record that is unfit fails its turn of the loop. *)
Lemma stats_entry_unfit (e : json) :
  unfit_for_stats e -> forall acc, exists x, stats_entry acc e = Raise x.
Proof.
  intros [Hdict|[(d & sid & -> & Hsid & Hhash)|[(d & v & -> & Hmd & Hv)
                |(d & m & k & x & -> & Hmd & Hk & Hx & Hnum)]]] acc.
  - destruct e; try discriminate; cbn; eauto.
  - unfold stats_entry, py_getitem, set_add. rewrite Hsid, Hhash. eauto.
  - unfold stats_entry.
    destruct (py_getitem (JDict d) "session_id") as [sid|]; [|eauto].
    destruct (set_add sid (sessions acc)); [|eauto].
    unfold py_get at 1. rewrite Hmd. cbn [default from_option id].
    destruct v; try discriminate; cbn; eauto.
  - unfold stats_entry.
    destruct (py_getitem (JDict d) "session_id") as [sid|]; [|eauto].
    destruct (set_add sid (sessions acc)); [|eauto].
    unfold py_get. rewrite Hmd. cbn [default from_option id].
    destruct Hk as [-> | ->].
    + rewrite Hx. cbn [default from_option id]. rewrite num_add_not_number by assumption. eauto.
    + destruct (num_add (total_frames acc) _); [|eauto].
      rewrite Hx. cbn [default from_option id]. rewrite num_add_not_number by assumption. eauto.
Qed.

Lemma int_count_default (m : pydict) (k : string) (n : Z) :
  int_count m k = Some n -> default (JInt 0) (dict_lookup k m) = JInt n.
Proof.
  unfold int_count. destruct (dict_lookup k m) as [[]|]; intros H;
    try discriminate; injection H as <-; reflexivity.
Qed.

(** One turn of the loop on a record with integer counts. *)
Lemma stats_entry_counts (acc : stats_acc) (e : json) (frames people f p : Z) :
  counts_as e frames people ->
  total_frames acc = PInt f -> total_people acc = PInt p ->
  exists sessions',
    stats_entry acc e
    = Ok (mk_acc (total_logs acc + 1) (PInt (f + frames)) (PInt (p + people)) sessions').
Proof.
  intros (d & sid & m & -> & Hsid & Hhash & Hmd & Hfr & Hpe) Hf Hp.
  unfold stats_entry, py_getitem, set_add, py_get.
  rewrite Hsid, Hhash, Hmd, (int_count_default m _ frames Hfr),
    (int_count_default m _ people Hpe), Hf, Hp.
  cbn. eauto.
Qed.

Lemma fold_counts (entries : list json) : forall (counts : list (Z * Z)) acc f p,
  Forall2 (fun e c => counts_as e c.1 c.2) entries counts ->
  total_frames acc = PInt f -> total_people acc = PInt p ->
  exists acc',
    fold_result stats_entry entries acc = Ok acc'
    /\ total_frames acc' = PInt (f + sum_Z (map fst counts))
    /\ total_people acc' = PInt (p + sum_Z (map snd counts)).
Proof.
  induction entries as [|e entries IH]; intros counts acc f p Hall Hf Hp.
  - inversion Hall; subst. exists acc. cbn. now rewrite !Z.add_0_r.
  - inversion Hall as [|e0 [fr pe] es cs Hc Hrest]; subst. cbn [fst snd] in Hc.
    destruct (stats_entry_counts acc e fr pe f p Hc Hf Hp) as [ss Hstep].
    cbn [fold_result]. rewrite Hstep.
    destruct (IH cs (mk_acc (total_logs acc + 1) (PInt (f + fr)) (PInt (p + pe)) ss)
                (f + fr) (p + pe) Hrest eq_refl eq_refl) as (acc' & Hfold & Hf' & Hp').
    exists acc'. split; [exact Hfold|]. cbn [map sum_Z fold_right fst snd].
    fold (sum_Z (map fst cs)). fold (sum_Z (map snd cs)).
    rewrite Hf', Hp'. split; f_equal; lia.
Qed.

Lemma add_session_length (x : json) (s : list json) :
  (length s <= length (add_session x s) <= S (length s))%nat
  /\ (1 <= length (add_session x s))%nat.
Proof.
  unfold add_session. destruct (existsb (key_eq x) s) eqn:Hex.
  - split; [lia|]. destruct s; [discriminate | cbn; lia].
  - rewrite length_app. cbn. lia.
Qed.

(** The set of sessions never outgrows the count of records. *)
Lemma fold_sessions_bound (entries : list json) : forall acc acc',
  fold_result stats_entry entries acc = Ok acc' ->
  Z.of_nat (length (sessions acc)) <= total_logs acc ->
  Z.of_nat (length (sessions acc')) <= total_logs acc'
  /\ (entries <> [] -> 1 <= Z.of_nat (length (sessions acc'))).
Proof.
  induction entries as [|e entries IH]; intros acc acc' Hfold Hbound.
  - cbn in Hfold. injection Hfold as <-. split; [assumption | congruence].
  - cbn [fold_result] in Hfold.
    destruct (stats_entry acc e) as [acc1|] eqn:He; [|discriminate].
    apply stats_entry_inv in He as (Hlogs & sid & _ & Hset).
    destruct (add_session_length sid (sessions acc)) as [[_ Hup] Hone].
    rewrite <- Hset in Hup, Hone.
    destruct (IH acc1 acc' Hfold ltac:(lia)) as [Hle Hge].
    split; [exact Hle|]. intros _. destruct entries as [|e' entries'].
    + cbn in Hfold. injection Hfold as <-. lia.
    + apply Hge. discriminate.
Qed.

Section StatsShapes.

Variable loads : string -> option json.

(** X11. [get_today_logs] returns any JSON value a line holds, but
    [get_stats] needs objects of the record's shape: a non-blank line whose
    value is not an object, or whose [session_id] is a list or an object,
    or whose [metadata] is not an object, or whose [frames_processed] or
    [people_detected] is not a number, makes [get_stats] fail with status
    500, while [get_today_logs] on the same readable file succeeds and
    returns that value among the records. *)
Theorem stats_rejects_unfit_record (w : World) (content line : string) (e : json) :
  files w !! today_path w = Some content ->
  In line (nonblank_lines content) ->
  loads line = Some e ->
  unfit_for_stats e ->
  fst (get_stats loads w) = Raise (HTTPException 500 (Text "Failed to calculate stats"))
  /\ (readable loads content ->
      exists logs,
        fst (get_today_logs loads w) =
          Ok (JDict [("logs", JList logs); ("count", JInt (Z.of_nat (length logs)));
                     ("log_file", JStr (today_path w))])
        /\ In e logs).
Proof.
  intros Hfile Hin Hline Hunfit. split.
  - rewrite get_stats_run, Hfile. cbn [fst].
    pose proof Hin as Hin'. apply filter_In in Hin' as [Hin' Hnb].
    destruct (fold_result_raises (count_line loads) (readlines content) line Hin') with
      (acc := stats_init) as [x ->]; [|reflexivity].
    intros acc. unfold count_line. rewrite Hnb, Hline.
    now apply stats_entry_unfit.
  - intros Hread. destruct (readable_parsed loads content Hread) as [logs Hparsed].
    exists logs. split.
    + rewrite get_today_logs_run, Hfile. cbn [fst]. rewrite read_lines_parsed.
      unfold nonblank_lines in Hparsed. now rewrite Hparsed.
    + apply mapM_Some_1 in Hparsed.
      induction Hparsed as [|l v ls vs Hlv _ IH]; [destruct Hin|].
      destruct Hin as [->|Hin]; [left; congruence | right; now apply IH].
Qed.

(** X12. [get_stats] adds up what the records hold under [frames_processed]
    and [people_detected]: for a file whose records have a hashable
    [session_id] and a metadata object with integer (or no) counts, the two
    totals are the sums of those counts, a missing count or a missing
    metadata counting for 0. *)
Theorem stats_sums_snake_case (w : World) (content : string) (entries : list json)
    (counts : list (Z * Z)) :
  files w !! today_path w = Some content ->
  mapM loads (nonblank_lines content) = Some entries ->
  Forall2 (fun e c => counts_as e c.1 c.2) entries counts ->
  reports (fst (get_stats loads w)) "total_frames_processed" (JInt (sum_Z (map fst counts)))
  /\ reports (fst (get_stats loads w)) "total_people_detected"
       (JInt (sum_Z (map snd counts)))
  /\ reports (fst (get_stats loads w)) "total_logs" (JInt (Z.of_nat (length entries))).
Proof.
  intros Hfile Hparsed Hcounts.
  rewrite get_stats_run, Hfile. cbn [fst].
  rewrite (count_lines_parsed loads _ entries Hparsed).
  destruct (fold_counts entries counts stats_init 0 0 Hcounts eq_refl eq_refl)
    as (acc & Hfold & Hf & Hp).
  rewrite Hfold. pose proof (fold_total_logs entries stats_init acc Hfold) as Hlogs.
  repeat split; eexists _, _; (split; [reflexivity|]); (split; [reflexivity|]); cbn.
  - now rewrite Hf.
  - now rewrite Hp.
  - now rewrite Hlogs.
Qed.

(** X13. Whenever [get_stats] reports its counts, [unique_sessions] lies
    between 0 and [total_logs], and is at least 1 as soon as there is a
    record. *)
Theorem unique_sessions_bounded (w : World) (u n : Z) :
  reports (fst (get_stats loads w)) "unique_sessions" (JInt u) ->
  reports (fst (get_stats loads w)) "total_logs" (JInt n) ->
  0 <= u <= n /\ (0 < n -> 1 <= u).
Proof.
  intros (reply & stats & Hreply & Hstats & Hu) (reply' & stats' & Hreply' & Hstats' & Hn).
  rewrite Hreply in Hreply'. injection Hreply' as <-.
  rewrite Hstats in Hstats'. injection Hstats' as <-.
  rewrite get_stats_run in Hreply. cbn [fst] in Hreply.
  destruct (files w !! today_path w) as [content|].
  - destruct (fold_result (count_line loads) (readlines content) stats_init)
      as [acc|] eqn:Hfold; [|discriminate].
    injection Hreply as <-. cbn in Hstats. injection Hstats as <-.
    cbn in Hu, Hn. injection Hu as <-. injection Hn as <-.
    destruct (count_lines_ok loads content acc Hfold) as (entries & _ & Hentries).
    destruct (fold_sessions_bound entries stats_init acc Hentries) as [Hle Hge];
      [cbn; lia|].
    pose proof (fold_total_logs entries stats_init acc Hentries) as Hlogs.
    cbn [total_logs stats_init] in Hlogs.
    split; [lia|]. intros Hpos. apply Hge. intros ->. cbn in Hlogs. lia.
  - injection Hreply as <-. cbn in Hstats. injection Hstats as <-. discriminate.
Qed.

End StatsShapes.

(** ** The file of the day, as every handler names it *)

(** X14. Two calls of [get_log_filename] name the same file exactly when
    the clock shows the same date at both: the date is all of the clock
    that enters the name. *)
Theorem log_filename_by_date (w1 w2 : World) :
  fst (get_log_filename w1) = fst (get_log_filename w2)
  <-> strftime_ymd (clock w1 (ticks w1)) = strftime_ymd (clock w2 (ticks w2)).
Proof.
  change (fst (get_log_filename w1)) with (@Ok string (day_file (clock w1 (ticks w1)))).
  change (fst (get_log_filename w2)) with (@Ok string (day_file (clock w2 (ticks w2)))).
  split; intros H.
  - apply day_file_inj. congruence.
  - apply day_file_inj in H. congruence.
Qed.

Section OneDay.

Variable dumps : json -> string.
Variable loads : string -> option json.

(** X15. While the clock stays on one date, every handler works on the one
    file of that date: [health_check] reports it as [current_log_file], a
    successful [log_summary] writes it and no other file, and
    [get_today_logs] and [get_stats], when that file exists and they
    succeed, give it as [log_file]. *)
Theorem one_day_one_file (w : World) (date : string) :
  one_day w date ->
  let today := "logs/monitoring_logs_" +:+ date +:+ ".jsonl" in
  (exists reply, fst (health_check w) = Ok reply
                 /\ py_getitem reply "current_log_file" = Ok (JStr today))
  /\ (forall q resp w1,
        log_summary dumps q w = (Ok resp, w1) ->
        is_Some (files w1 !! today)
        /\ forall p, p <> today -> files w1 !! p = files w !! p)
  /\ (forall reply,
        is_Some (files w !! today) ->
        fst (get_today_logs loads w) = Ok reply ->
        py_getitem reply "log_file" = Ok (JStr today))
  /\ (forall reply,
        is_Some (files w !! today) ->
        fst (get_stats loads w) = Ok reply ->
        py_getitem reply "log_file" = Ok (JStr today)).
Proof.
  intros Hday today.
  assert (forall n, day_file (clock w n) = today) as Hfile
    by (intros n; unfold day_file; now rewrite Hday).
  split; [|split; [|split]].
  - rewrite health_check_run. eexists. split; [reflexivity|]. cbn. now rewrite Hfile.
  - intros q resp w1 Hlog. apply log_summary_ok in Hlog as (_ & Hwritten & Hothers).
    rewrite (one_day_target_path w date q Hday) in Hwritten, Hothers.
    split; [eauto | exact Hothers].
  - intros reply [content Hcontent] Hreply.
    rewrite get_today_logs_run in Hreply. cbn [fst] in Hreply.
    unfold today_path in Hreply. rewrite Hfile, Hcontent in Hreply.
    destruct (fold_result _ _ _); [|discriminate]. now injection Hreply as <-.
  - intros reply [content Hcontent] Hreply.
    rewrite get_stats_run in Hreply. cbn [fst] in Hreply.
    unfold today_path in Hreply. rewrite Hfile, Hcontent in Hreply.
    destruct (fold_result _ _ _); [|discriminate]. now injection Hreply as <-.
Qed.

End OneDay.

(** ** Blank lines *)

Section BlankLines.

Variable loads : string -> option json.

Lemma fold_per_line_filter {S} (g : S -> json -> result S) (lines : list string) :
  forall acc,
  fold_result (per_line loads g) lines acc
  = fold_result (per_line loads g) (List.filter strip_truthy lines) acc.
Proof.
  induction lines as [|line lines IH]; intros acc; [reflexivity|].
  cbn [List.filter fold_result]. destruct (strip_truthy line) eqn:Hnb.
  - cbn [fold_result]. destruct (per_line loads g acc line); [apply IH | reflexivity].
  - unfold per_line at 1. rewrite Hnb. apply IH.
Qed.

(** X16. Blank lines are invisible to the readers: two day files with the
    same non-blank lines, in the same order, get the same answers from
    [get_today_logs] and from [get_stats], wherever lines that are empty or
    hold only white space stand between them. *)
Theorem blank_lines_invisible (w1 w2 : World) (c1 c2 : string) :
  today_path w1 = today_path w2 ->
  files w1 !! today_path w1 = Some c1 ->
  files w2 !! today_path w2 = Some c2 ->
  nonblank_lines c1 = nonblank_lines c2 ->
  fst (get_today_logs loads w1) = fst (get_today_logs loads w2)
  /\ fst (get_stats loads w1) = fst (get_stats loads w2).
Proof.
  intros Hpath Hc1 Hc2 Hlines.
  rewrite !get_today_logs_run, !get_stats_run, Hc1, Hc2, Hpath. cbn [fst].
  rewrite !read_lines_parsed.
  change (count_line loads) with (per_line loads stats_entry).
  rewrite (fold_per_line_filter stats_entry (readlines c1)),
    (fold_per_line_filter stats_entry (readlines c2)).
  unfold nonblank_lines in Hlines. now rewrite Hlines.
Qed.

End BlankLines.

(** ** The further properties on concrete worlds *)

Module MoreWitnesses.
Import Examples MoreExamples.


(** X2 on data that already carries a [server_timestamp]. *)
Lemma log_to_file_appends_witness :
  exists record : pydict,
    files (snd (log_to_file RefJson.dumps stale_data world0))
    = <[ "logs/monitoring_logs_2024-03-07.jsonl" :=
           RefJson.dumps (JDict record) +:+ NL ]> (files world0)
    /\ dict_lookup "server_timestamp" record = Some (JStr "2024-03-07T12:00:01")
    /\ dict_lookup "session_id" record = Some (JStr "a").
Proof.
  destruct (log_to_file_appends RefJson.dumps stale_data world0 eq_refl)
    as (record & Hfiles & Hstamp & Hkeep & _).
  exists record. split; [exact Hfiles|]. split; [exact Hstamp|].
  rewrite Hkeep by discriminate. reflexivity.
Defined.


(** X5 on a file with a line that is not JSON. *)
Lemma readers_fail_generically_witness :
  read_failed = HTTPException 500 (Text "Failed to read logs")
  /\ is_Some (files (with_file damaged world0) !! today_path (with_file damaged world0)).
Proof.
  destruct (readers_fail_generically RefJson.loads (with_file damaged world0))
    as (_ & _ & Hlogs & _).
  apply (Hlogs read_failed). vm_compute. reflexivity.
Defined.

(** X6 on the file that three calls of [log_summary] leave. *)
Lemma stats_agree_with_logs_witness :
  exists logs,
    fst (get_today_logs RefJson.loads w3) =
      Ok (JDict [("logs", JList logs); ("count", JInt 3);
                 ("log_file", JStr "logs/monitoring_logs_2024-03-07.jsonl")])
    /\ Z.of_nat (length logs) = 3.
Proof.
  apply (stats_agree_with_logs RefJson.loads w3 3).
  eexists _, _. split; [vm_compute; reflexivity|]. split; reflexivity.
Defined.

Lemma day_requests_codec_ok :
  Forall (fun r => codec_ok RefJson.dumps RefJson.loads (JDict r))
    (records_of_run world0 day_requests).
Proof. repeat constructor; vm_compute; reflexivity. Qed.

Lemma clock_day_one_day : one_day world0 "2024-03-07".
Proof. intros n. reflexivity. Qed.

(** X7 on three requests posted on a day without a file. *)
Lemma day_of_requests_read_back_witness :
  exists (replies : list SummaryLogResponse.t) (records : list pydict),
    fst (log_each RefJson.dumps day_requests world0) = Ok replies
    /\ fst (get_today_logs RefJson.loads (snd (log_each RefJson.dumps day_requests world0)))
       = Ok (JDict [("logs", JList (map JDict records));
                    ("count", JInt 3);
                    ("log_file", JStr "logs/monitoring_logs_2024-03-07.jsonl")])
    /\ Forall2 (fun q record =>
                  dict_lookup "session_id" record
                  = Some (JStr (SummaryLogRequest.session_id q)))
         day_requests records.
Proof.
  destruct (day_of_requests_read_back RefJson.dumps RefJson.loads world0 "2024-03-07"
              day_requests [])
    as (replies & records & Hrun & Hread & Hfields & _).
  - reflexivity.
  - exact clock_day_one_day.
  - discriminate.
  - vm_compute. reflexivity.
  - exact day_requests_codec_ok.
  - exists replies, records. split; [exact Hrun|]. split; [exact Hread|].
    eapply Forall2_impl; [exact Hfields|]. now intros q record (H & _).
Defined.

(** X8 on three requests of two sessions. *)
Lemma day_of_requests_stats_witness :
  reports (fst (get_stats RefJson.loads (snd (log_each RefJson.dumps day_requests world0))))
    "total_logs" (JInt 3)
  /\ reports (fst (get_stats RefJson.loads (snd (log_each RefJson.dumps day_requests world0))))
       "unique_sessions" (JInt 2).
Proof.
  destruct (day_of_requests_stats RefJson.dumps RefJson.loads world0 "2024-03-07" day_requests)
    as (Hlogs & Hunique & _).
  - reflexivity.
  - exact clock_day_one_day.
  - discriminate.
  - vm_compute. reflexivity.
  - exact day_requests_codec_ok.
  - split; [exact Hlogs|].
    replace 2 with (Z.of_nat (size (list_to_set
                       (map SummaryLogRequest.session_id day_requests) : gset string)))
      by (vm_compute; reflexivity).
    exact Hunique.
Defined.

(** X9 on three requests, with a UUID source that counts. *)
Lemma log_ids_distinct_witness :
  NoDup (map SummaryLogResponse.log_id
           (match fst (log_each RefJson.dumps day_requests world_counting) with
            | Ok replies => replies
            | Raise _ => []
            end))
  /\ draws (snd (log_each RefJson.dumps day_requests world_counting)) = 3%nat.
Proof.
  apply (log_ids_distinct RefJson.dumps day_requests world_counting).
  - vm_compute. reflexivity.
  - intros i j H. exact (pretty_nat_inj i j H).
Defined.

(** X10 on a reader of the next day. *)
Lemma log_summary_other_day_witness :
  fst (get_today_logs RefJson.loads
         (set_files (files (snd (log_summary RefJson.dumps (request "a" None) world0)))
            next_day_reader))
  = fst (get_today_logs RefJson.loads (set_files (files world0) next_day_reader)).
Proof.
  apply (log_summary_other_day RefJson.dumps RefJson.loads world0 next_day_reader
           (request "a" None)).
  vm_compute. discriminate.
Defined.

(** X11 on a file with a line that holds a list. *)
Lemma stats_rejects_unfit_record_witness :
  fst (get_stats RefJson.loads (with_file unfit_file world0))
  = Raise (HTTPException 500 (Text "Failed to calculate stats"))
  /\ exists logs,
       fst (get_today_logs RefJson.loads (with_file unfit_file world0)) =
         Ok (JDict [("logs", JList logs); ("count", JInt (Z.of_nat (length logs)));
                    ("log_file", JStr (today_path (with_file unfit_file world0)))])
       /\ In (JList [JInt 1; JInt 2]) logs.
Proof.
  destruct (stats_rejects_unfit_record RefJson.loads (with_file unfit_file world0)
              unfit_file list_line (JList [JInt 1; JInt 2])) as [Hstats Hlogs].
  - vm_compute. reflexivity.
  - vm_compute. auto.
  - vm_compute. reflexivity.
  - left. reflexivity.
  - split; [exact Hstats|]. apply Hlogs.
    intros line Hin. vm_compute in Hin.
    destruct Hin as [<-|[<-|[]]]; vm_compute; discriminate.
Defined.

(** X12 on two records with counts and one without metadata. *)
Lemma stats_sums_snake_case_witness :
  reports (fst (get_stats RefJson.loads (with_file counted_file world0)))
    "total_frames_processed" (JInt 15)
  /\ reports (fst (get_stats RefJson.loads (with_file counted_file world0)))
       "total_people_detected" (JInt 3).
Proof.
  destruct (stats_sums_snake_case RefJson.loads (with_file counted_file world0) counted_file
              [counted "a" 10 2; counted "b" 5 1; JDict bare_record]
              [(10, 2); (5, 1); (0, 0)]) as (Hframes & Hpeople & _).
  - vm_compute. reflexivity.
  - vm_compute. reflexivity.
  - repeat constructor; eexists _, _, _; repeat split; reflexivity.
  - now split.
Defined.

(** X13 on the file that three calls of [log_summary] leave. *)
Lemma unique_sessions_bounded_witness : 0 <= 2 <= 3 /\ (0 < 3 -> 1 <= 2).
Proof.
  apply (unique_sessions_bounded RefJson.loads w3 2 3);
    (eexists _, _; split; [vm_compute; reflexivity|]; split; reflexivity).
Defined.

(** X14 on two readings of the same day. *)
Lemma log_filename_by_date_witness :
  fst (get_log_filename world0) = fst (get_log_filename w3).
Proof. apply (log_filename_by_date world0 w3). reflexivity. Defined.

(** X15 under a clock that stays on one day. *)
Lemma one_day_one_file_witness :
  exists reply,
    fst (health_check world0) = Ok reply
    /\ py_getitem reply "current_log_file"
       = Ok (JStr "logs/monitoring_logs_2024-03-07.jsonl").
Proof.
  apply (one_day_one_file RefJson.dumps RefJson.loads world0 "2024-03-07").
  exact clock_day_one_day.
Defined.

(** X16 on a file with blank lines and the same file without them. *)
Lemma blank_lines_invisible_witness :
  fst (get_today_logs RefJson.loads (with_file two_records world0))
  = fst (get_today_logs RefJson.loads (with_file (line_of "a" +:+ line_of "b") world0))
  /\ fst (get_stats RefJson.loads (with_file two_records world0))
     = fst (get_stats RefJson.loads (with_file (line_of "a" +:+ line_of "b") world0)).
Proof.
  apply (blank_lines_invisible RefJson.loads _ _ two_records (line_of "a" +:+ line_of "b"));
    vm_compute; reflexivity.
Defined.

End MoreWitnesses.
